(** * CIFuzz: run orchestration and crash-report extraction

    A shallow embedding of [infra/cifuzz/cifuzz.py]: [build_fuzzers],
    [run_fuzzers], [download_latest_corpus] and [parse_fuzzer_output], with
    the Python
    string primitives they rely on ([str.find], slicing, truthiness) and a
    small model of the file-system calls they make.  The modules the
    program calls into are a type class, [Env]; the calls made are kept in
    a log, so that their order can be stated.  Logging does not bear on
    any of this and is left out. *)

From Stdlib Require Import ZArith Lia Ascii String.
From stdpp Require Import gmap strings list.

Local Open Scope Z_scope.

(** ** Python strings

    A Python [str] is a sequence of Unicode code points; a code point is
    an [N].  Literals of the source are written as Rocq strings and
    converted with [py]. *)

Abbreviation pystr := (list N).

Definition py (s : string) : pystr :=
  (fun a => N_of_ascii a) <$> list_ascii_of_string s.

(** [len(s)], of a string or a list *)
Definition len {A} (s : list A) : Z := Z.of_nat (length s).

Module Str.

(** [s.startswith(sub)] *)
Fixpoint startswith (s sub : pystr) : bool :=
  match sub, s with
  | [], _ => true
  | _ :: _, [] => false
  | c :: sub', d :: s' => (c =? d)%N && startswith s' sub'
  end.

(** [s.find(sub)]: the lowest index at which [sub] occurs in [s], and
    [-1] when it occurs nowhere.  [find_from i] scans a suffix that
    starts at index [i] of the whole string. *)
Fixpoint find_from (i : Z) (s sub : pystr) : Z :=
  if startswith s sub then i
  else match s with
       | [] => -1
       | _ :: s' => find_from (i + 1) s' sub
       end.

Definition find (s sub : pystr) : Z := find_from 0 s sub.

(** [s.rfind(sub)]: the highest such index, or [-1]. *)
Fixpoint rfind_from (i : Z) (s sub : pystr) : Z :=
  match s with
  | [] => if startswith s sub then i else -1
  | _ :: s' =>
      let r := rfind_from (i + 1) s' sub in
      if r =? -1 then (if startswith s sub then i else -1) else r
  end.

Definition rfind (s sub : pystr) : Z := rfind_from 0 s sub.

(** [sub in s] *)
Definition contains (s sub : pystr) : bool := negb (find s sub =? -1).

(** [s.endswith(sub)] *)
Definition endswith (s sub : pystr) : bool :=
  startswith (reverse s) (reverse sub).

End Str.

(** ** Python values held by the local variables of the extractor *)

Inductive pyval :=
  | PyNone
  | PyInt (z : Z).

Definition is_None (v : pyval) : bool :=
  match v with PyNone => true | PyInt _ => false end.

(** Truth value of an [int]: every integer but [0] is true. *)
Definition truthy_int (z : Z) : bool := negb (z =? 0).

(** Truth value of a [str]: true unless empty. *)
Definition truthy_str (s : pystr) : bool :=
  match s with [] => false | _ :: _ => true end.

(** Truth value of a value that is [None] or a [str]. *)
Definition truthy_opt (o : option pystr) : bool :=
  match o with None => false | Some s => truthy_str s end.

(** Truth value of a [list]. *)
Definition truthy_list {A} (l : list A) : bool :=
  match l with [] => false | _ :: _ => true end.

(** ** Slicing

    [s[b:e]] with step one.  A bound that is [None] is the matching end of
    the string; a negative bound counts from the end; bounds are clamped
    to [0 .. len s]. *)

Definition adjust_index (i n : Z) : Z :=
  if i <? 0 then Z.max (i + n) 0 else Z.min i n.

Definition slice_start (b : pyval) (n : Z) : Z :=
  match b with PyNone => 0 | PyInt i => adjust_index i n end.

Definition slice_stop (e : pyval) (n : Z) : Z :=
  match e with PyNone => n | PyInt i => adjust_index i n end.

Definition py_slice (s : pystr) (b e : pyval) : pystr :=
  let start := slice_start b (len s) in
  let stop := slice_stop e (len s) in
  if start <? stop
  then take (Z.to_nat (stop - start)) (drop (Z.to_nat start) s)
  else [].

(** ** Marker tables *)

Definition STACKTRACE_TOOL_MARKERS : list pystr :=
  py <$> [ "AddressSanitizer";
           "ASAN:";
           "CFI: Most likely a control flow integrity violation;";
           "ERROR: libFuzzer";
           "KASAN:";
           "LeakSanitizer";
           "MemorySanitizer";
           "ThreadSanitizer";
           "UndefinedBehaviorSanitizer";
           "UndefinedSanitizer" ]%string.

Definition NL : string := String (ascii_of_nat 10) EmptyString.

Definition STACKTRACE_END_MARKERS : list pystr :=
  py <$> [ "ABORTING";
           "END MEMORY TOOL REPORT";
           "End of process memory map.";
           "END_KASAN_OUTPUT";
           "SUMMARY:";
           "Shadow byte and word";
           "[end of stack trace]";
           (NL ++ "Exiting")%string;
           "minidump has been written" ]%string.

(** ** File system

    The part of the file system the program names: a finite map from
    paths, compared as written, to nodes.  Link resolution, permissions,
    path normalisation and paths the system refuses (a NUL character) are
    outside the model.  Text files are encoded as UTF-8. *)

Inductive node :=
  | Dir
  | File (content : pystr).

Abbreviation filesys := (gmap pystr node).

Definition SEP : N := 47.

Module Path.

(** One step of [os.path.join]: an absolute component replaces what came
    before; otherwise components are joined by exactly one separator. *)
Definition join2 (path b : pystr) : pystr :=
  if Str.startswith b [SEP] then b
  else if negb (truthy_str path) || Str.endswith path [SEP] then path ++ b
  else path ++ [SEP] ++ b.

(** [os.path.join(a, *p)] *)
Definition join (a : pystr) (p : list pystr) : pystr := foldl join2 a p.

(** [os.path.basename(p)] *)
Definition basename (p : pystr) : pystr :=
  let i := Str.rfind p [SEP] + 1 in
  py_slice p (PyInt i) PyNone.

(** [s.lstrip('/')] and [s.rstrip('/')] *)
Fixpoint lstrip_sep (s : pystr) : pystr :=
  match s with
  | [] => []
  | c :: s' => if (c =? SEP)%N then lstrip_sep s' else s
  end.

Definition rstrip_sep (s : pystr) : pystr := reverse (lstrip_sep (reverse s)).

Definition all_sep (s : pystr) : bool := forallb (fun c => (c =? SEP)%N) s.

(** [os.path.dirname(p)] *)
Definition dirname (p : pystr) : pystr :=
  let i := Str.rfind p [SEP] + 1 in
  let head := py_slice p PyNone (PyInt i) in
  if truthy_str head && negb (all_sep head) then rstrip_sep head else head.

(** The proper ancestors of a path, shortest first: the prefixes that end
    just before a separator.  [pre] is the part already scanned. *)
Fixpoint ancestors_from (pre rest : pystr) : list pystr :=
  match rest with
  | [] => []
  | c :: rest' =>
      (if (c =? SEP)%N && truthy_str pre && negb (Str.endswith pre [SEP])
       then [pre] else [])
      ++ ancestors_from (pre ++ [c]) rest'
  end.

Definition ancestors (p : pystr) : list pystr := ancestors_from [] p.

End Path.

(** ** Exceptions and outcomes *)

Inductive exn :=
  | UnboundLocalError
  | FileExistsError
  | NotADirectoryError
  | FileNotFoundError
  | IsADirectoryError
  | UnicodeEncodeError
  | HTTPError
  | OtherError (tag : N).

Inductive outcome (A : Type) :=
  | Ret (a : A)
  | Raise (e : exn).

Arguments Ret {A} a.
Arguments Raise {A} e.

#[global] Instance exn_eq_dec : EqDecision exn.
Proof. solve_decision. Defined.

(** ** Collaborators

    The modules the program imports and calls into.  [Ext] is the state
    they act on besides the file system: the network, the clock, the
    processes they start.  A collaborator that may let an exception escape
    returns an [outcome]. *)

Class Env := {
  Ext : Type;
  (** [utils.get_fuzz_targets(out_dir)] *)
  get_fuzz_targets : pystr -> filesys -> Ext -> list pystr;
  (** [fuzz_target.FuzzTarget(path, duration, out_dir, corpus_dir).fuzz()],
      which yields [(test_case, stack_trace)], each a string or [None] *)
  fuzz : pystr -> Z -> pystr -> option pystr -> filesys -> Ext ->
         (option pystr * option pystr) * filesys * Ext;
  (** [helper.check_project_exists(project_name)] *)
  check_project_exists : pystr -> filesys -> Ext -> bool;
  (** [datetime.datetime.now()], as the ordinal of the day it falls on *)
  now : Ext -> Z;
  (** [d.strftime('%Y-%m-%d')] of the day with that ordinal *)
  strftime_ymd : Z -> pystr;
  (** [urllib.request.urlopen(link).read()] *)
  urlopen_read : pystr -> Ext -> outcome pystr * Ext;
  (** [zipfile.ZipFile(io.BytesIO(body)).extractall(dest)] *)
  extractall : pystr -> pystr -> filesys -> outcome unit * filesys;
  (** [shutil.move(src, dst)] *)
  shutil_move : pystr -> pystr -> filesys -> outcome unit * filesys;
}.

(** ** Calls observed during a run, in the order they are made, each
    with what it gave back *)

Inductive call :=
  | Makedirs (p : pystr) (r : outcome unit)
  | Discover (out_dir : pystr) (found : list pystr)
  | Urlopen (link : pystr) (r : outcome pystr)
  | Extractall (body dest : pystr) (r : outcome unit)
  | Fuzz (fuzzer_path : pystr) (duration : Z) (out_dir : pystr)
         (corpus_dir : option pystr) (test_case stack_trace : option pystr)
  | Move (src dst : pystr) (r : outcome unit)
  | Append (p s : pystr) (r : outcome unit).

(** ** The monad of the program: state, exceptions and the call log *)

Record world `{Env} := World { w_fs : filesys; w_ext : Ext }.

Definition M `{Env} (A : Type) : Type := world -> outcome A * world * list call.

Definition ret `{Env} {A} (a : A) : M A := fun w => (Ret a, w, []).

Definition raise `{Env} {A} (e : exn) : M A := fun w => (Raise e, w, []).

Definition bind `{Env} {A B} (m : M A) (f : A -> M B) : M B :=
  fun w =>
    match m w with
    | (Ret a, w1, t1) => let '(r, w2, t2) := f a w1 in (r, w2, t1 ++ t2)
    | (Raise e, w1, t1) => (Raise e, w1, t1)
    end.

Declare Scope prog_scope.
Delimit Scope prog_scope with prog.
Open Scope prog_scope.

Notation "x <- m ;; k" := (bind m (fun x => k))
  (at level 100, m at next level, k at level 200, right associativity,
   only parsing) : prog_scope.
Notation "m ;; k" := (bind m (fun _ => k))
  (at level 100, k at level 200, right associativity, only parsing)
  : prog_scope.

(** [try: m  except e: h] *)
Definition try_except `{Env} {A} (m : M A) (e : exn) (h : M A) : M A :=
  fun w =>
    match m w with
    | (Raise e', w1, t1) =>
        if decide (e' = e)
        then let '(r, w2, t2) := h w1 in (r, w2, t1 ++ t2)
        else (Raise e', w1, t1)
    | r => r
    end.

(** How the body of a [for] loop ends: it falls through to the next
    iteration, breaks out of the loop, or returns from the function. *)
Inductive ctl (R : Type) :=
  | Next
  | Break
  | Return (r : R).

Arguments Next {R}.
Arguments Break {R}.
Arguments Return {R} r.

(** [for x in xs: body]; [Some r] when the body returned [r]. *)
Fixpoint for_in `{Env} {X R} (xs : list X) (body : X -> M (ctl R)) : M (option R) :=
  match xs with
  | [] => ret None
  | x :: xs' =>
      c <- body x ;;
      match c with
      | Next => for_in xs' body
      | Break => ret None
      | Return r => ret (Some r)
      end
  end.

(** ** File-system calls *)

(** [os.path.exists(p)] *)
Definition os_path_exists (p : pystr) (fs : filesys) : bool :=
  bool_decide (is_Some (fs !! p)).

(** [os.path.isdir(p)] *)
Definition os_path_isdir (p : pystr) (fs : filesys) : bool :=
  match fs !! p with Some Dir => true | _ => false end.

(** Creating one directory of the chain that [os.makedirs] walks: a
    directory that is there already is kept, a regular file in the way is
    an error. *)
Definition mkdir_step (leaf : bool) (acc : outcome unit * filesys) (p : pystr)
  : outcome unit * filesys :=
  match acc with
  | (Raise e, fs) => (Raise e, fs)
  | (Ret _, fs) =>
      match fs !! p with
      | Some Dir => (Ret tt, fs)
      | Some (File _) =>
          (Raise (if leaf then FileExistsError else NotADirectoryError), fs)
      | None => (Ret tt, <[p := Dir]> fs)
      end
  end.

(** [os.makedirs(p, exist_ok=True)]: the missing ancestors first, then
    the directory itself. *)
Definition os_makedirs (p : pystr) (fs : filesys) : outcome unit * filesys :=
  mkdir_step true (foldl (mkdir_step false) (Ret tt, fs) (Path.ancestors p)) p.

(** Whether a text can be written to a file: a lone surrogate has no
    UTF-8 encoding, and [str.write] raises on it. *)
Definition utf8_encodable (s : pystr) : bool :=
  forallb (fun c => (c <? 55296)%N || ((57343 <? c)%N && (c <=? 1114111)%N)) s.

Definition is_file (p : pystr) (fs : filesys) : bool :=
  match fs !! p with Some (File _) => true | _ => false end.

(** [with open(p, 'a') as h: h.write(s)].  [open] fails on a directory,
    or when the file is not there and the directory it goes into is
    missing ([FileNotFoundError]) or has a regular file on the way to it
    ([NotADirectoryError]); otherwise the file is there or is created
    empty.  [write] then encodes the text, which fails on a text that
    cannot be encoded and leaves the file as [open] left it; otherwise the
    text goes after what the file holds. *)
Definition open_append (p s : pystr) (fs : filesys) : outcome unit * filesys :=
  match fs !! p with
  | Some Dir => (Raise IsADirectoryError, fs)
  | Some (File c) =>
      if utf8_encodable s then (Ret tt, <[p := File (c ++ s)]> fs)
      else (Raise UnicodeEncodeError, fs)
  | None =>
      let d := Path.dirname p in
      if Path.all_sep d || os_path_isdir d fs
      then
        if utf8_encodable s then (Ret tt, <[p := File s]> fs)
        else (Raise UnicodeEncodeError, <[p := File []]> fs)
      else if existsb (fun a => is_file a fs) (Path.ancestors p)
      then (Raise NotADirectoryError, fs)
      else (Raise FileNotFoundError, fs)
  end.

(** What reading file [p] back gives. *)
Definition read_file (p : pystr) (fs : filesys) : option pystr :=
  match fs !! p with Some (File c) => Some c | _ => None end.

(** ** Primitive steps of the program, in the monad *)

Definition exists_ `{Env} (p : pystr) : M bool :=
  fun w => (Ret (os_path_exists p (w_fs w)), w, []).

Definition makedirs `{Env} (p : pystr) : M unit :=
  fun w =>
    let '(r, fs') := os_makedirs p (w_fs w) in
    (r, World _ fs' (w_ext w), [Makedirs p r]).

Definition append_file `{Env} (p s : pystr) : M unit :=
  fun w =>
    let '(r, fs') := open_append p s (w_fs w) in
    (r, World _ fs' (w_ext w), [Append p s r]).

Definition move `{Env} (src dst : pystr) : M unit :=
  fun w =>
    let '(r, fs') := shutil_move src dst (w_fs w) in
    (r, World _ fs' (w_ext w), [Move src dst r]).

Definition discover `{Env} (out_dir : pystr) : M (list pystr) :=
  fun w =>
    let found := get_fuzz_targets out_dir (w_fs w) (w_ext w) in
    (Ret found, w, [Discover out_dir found]).

Definition project_exists `{Env} (project_name : pystr) : M bool :=
  fun w => (Ret (check_project_exists project_name (w_fs w) (w_ext w)), w, []).

Definition datetime_now `{Env} : M Z :=
  fun w => (Ret (now (w_ext w)), w, []).

Definition urlopen `{Env} (link : pystr) : M pystr :=
  fun w =>
    let '(r, ext') := urlopen_read link (w_ext w) in
    (r, World _ (w_fs w) ext', [Urlopen link r]).

Definition extract_zip `{Env} (body dest : pystr) : M unit :=
  fun w =>
    let '(r, fs') := extractall body dest (w_fs w) in
    (r, World _ fs' (w_ext w), [Extractall body dest r]).

Definition run_target `{Env} (fuzzer_path : pystr) (duration : Z)
    (out_dir : pystr) (corpus_dir : option pystr)
  : M (option pystr * option pystr) :=
  fun w =>
    let '(r, fs', ext') :=
      fuzz fuzzer_path duration out_dir corpus_dir (w_fs w) (w_ext w) in
    (Ret r, World _ fs' ext',
     [Fuzz fuzzer_path duration out_dir corpus_dir (fst r) (snd r)]).

(** ** [parse_fuzzer_output] *)

(** The first loop.  [None] is the local [begin_summary] still unbound
    when the loop is over. *)
Fixpoint begin_loop (fuzzer_output : pystr) (markers : list pystr)
  : option pyval :=
  match markers with
  | [] => None
  | marker :: rest =>
      let marker_index := Str.find fuzzer_output marker in
      if truthy_int marker_index
      then Some (PyInt marker_index)
      else begin_loop fuzzer_output rest
  end.

(** The second loop, entered with [end_summary] already bound. *)
Fixpoint end_loop (fuzzer_output : pystr) (markers : list pystr)
    (end_summary : pyval) : pyval :=
  match markers with
  | [] => end_summary
  | marker :: rest =>
      let marker_index := Str.find fuzzer_output marker in
      if truthy_int marker_index
      then PyInt (marker_index + len marker)
      else end_loop fuzzer_output rest end_summary
  end.

(** [begin_summary is None or end_summary is None] *)
Definition bounds_guard (begin_summary end_summary : pyval) : bool :=
  is_None begin_summary || is_None end_summary.

Definition SUMMARY_FILE : pystr := py "bug_summary.txt".

Definition parse_fuzzer_output `{Env} (fuzzer_output out_dir : pystr) : M unit :=
  let begin_binding := begin_loop fuzzer_output STACKTRACE_TOOL_MARKERS in
  let end_summary :=
    end_loop fuzzer_output STACKTRACE_END_MARKERS (PyInt (-1)) in
  match begin_binding with
  | None => raise UnboundLocalError
  | Some begin_summary =>
      if bounds_guard begin_summary end_summary then ret tt
      else
        let summary_str := py_slice fuzzer_output begin_summary end_summary in
        if negb (truthy_str summary_str) then ret tt
        else
          let summary_file_path := Path.join out_dir [SUMMARY_FILE] in
          append_file summary_file_path summary_str
  end.

(** ** [download_latest_corpus] *)

(** [http_link.format(project_name, target, date_str)] *)
Definition http_link (project_name target date_str : pystr) : pystr :=
  py "https://storage.googleapis.com/" ++ project_name
  ++ py "-backup.clusterfuzz-external.appspot.com/corpus/libFuzzer/"
  ++ project_name ++ py "_" ++ target ++ py "/" ++ date_str ++ py ".zip".

(** [range(a, b)] *)
Definition range (a b : Z) : list Z := seqZ a (b - a).

(** The body of the loop over the day offsets. *)
Definition probe_day `{Env} (project_name target corpus_dir : pystr)
    (current_date day_diff : Z) : M (ctl (option pystr)) :=
  let date_to_check := current_date - day_diff in
  let date_str := strftime_ymd date_to_check in
  let corpus_link := http_link project_name target date_str in
  c <- try_except
         (body <- urlopen corpus_link ;;
          extract_zip body corpus_dir ;;
          ret Next)
         HTTPError
         (ret (Return None)) ;;
  match c with
  | Next => ret (Return (Some corpus_dir))
  | c => ret c
  end.

Definition download_latest_corpus `{Env} (project_name out_dir target : pystr)
  : M (option pystr) :=
  known <- project_exists project_name ;;
  if negb known then ret None
  else
    there <- exists_ out_dir ;;
    if negb there then ret None
    else
      let corpus_dir := Path.join out_dir [py "corpus"; target] in
      makedirs corpus_dir ;;
      current_date <- datetime_now ;;
      r <- for_in (range 90 100)
             (probe_day project_name target corpus_dir current_date) ;;
      match r with
      | Some v => ret v
      | None => ret None
      end.

(** ** [run_fuzzers] *)

(** The body of the loop over the fuzzers. *)
Definition run_one `{Env} (project_name : option pystr)
    (out_dir artifacts_dir : pystr) (fuzz_seconds_per_target : Z)
    (fuzzer_path : pystr) : M (ctl (bool * bool)) :=
  corpus_dir <-
    match project_name with
    | Some name =>
        if truthy_str name
        then download_latest_corpus name out_dir (Path.basename fuzzer_path)
        else ret None
    | None => ret None
    end ;;
  r <- run_target fuzzer_path fuzz_seconds_per_target out_dir corpus_dir ;;
  match r with
  | (Some test_case, Some stack_trace) =>
      if negb (truthy_str test_case) || negb (truthy_str stack_trace)
      then ret Next
      else
        move test_case (Path.join artifacts_dir [py "test_case"]) ;;
        parse_fuzzer_output stack_trace artifacts_dir ;;
        ret (Return (true, true))
  | _ => ret Next
  end.

Definition run_fuzzers `{Env} (fuzz_seconds : Z) (workspace : pystr)
    (project_name : option pystr) : M (bool * bool) :=
  there <- exists_ workspace ;;
  if negb there then ret (false, false)
  else
    let out_dir := Path.join workspace [py "out"] in
    let artifacts_dir := Path.join out_dir [py "artifacts"] in
    makedirs artifacts_dir ;;
    if negb (truthy_int fuzz_seconds) || (fuzz_seconds <? 1)
    then ret (false, false)
    else
      fuzzer_paths <- discover out_dir ;;
      if negb (truthy_list fuzzer_paths) then ret (false, false)
      else
        let fuzz_seconds_per_target := fuzz_seconds / len fuzzer_paths in
        r <- for_in fuzzer_paths
               (run_one project_name out_dir artifacts_dir
                        fuzz_seconds_per_target) ;;
        match r with
        | Some v => ret v
        | None => ret (true, false)
        end.

(** ** What the extractor appends

    The text [parse_fuzzer_output] hands to the summary file, and [None]
    when it returns without writing. *)

Definition extracted (fuzzer_output : pystr) : option pystr :=
  match begin_loop fuzzer_output STACKTRACE_TOOL_MARKERS with
  | None => None
  | Some begin_summary =>
      let end_summary :=
        end_loop fuzzer_output STACKTRACE_END_MARKERS (PyInt (-1)) in
      if bounds_guard begin_summary end_summary then None
      else
        let summary_str := py_slice fuzzer_output begin_summary end_summary in
        if truthy_str summary_str then Some summary_str else None
  end.

(** Whether [open(p, 'a')] succeeds. *)
Definition can_append (p : pystr) (fs : filesys) : bool :=
  match fs !! p with
  | Some Dir => false
  | Some (File _) => true
  | None => Path.all_sep (Path.dirname p) || os_path_isdir (Path.dirname p) fs
  end.

(** ** The boundaries as the specification words them

    The first marker of the list that occurs in the text, with the index
    at which it occurs. *)

Fixpoint spec_first_match (text : pystr) (markers : list pystr)
  : option (pystr * Z) :=
  match markers with
  | [] => None
  | marker :: rest =>
      if Str.contains text marker then Some (marker, Str.find text marker)
      else spec_first_match text rest
  end.

Definition spec_start (text : pystr) : option Z :=
  snd <$> spec_first_match text STACKTRACE_TOOL_MARKERS.

(** The position just after the matched end marker; [PyNone], the end of
    the text, when no end marker occurs. *)
Definition spec_end (text : pystr) : pyval :=
  match spec_first_match text STACKTRACE_END_MARKERS with
  | Some (marker, i) => PyInt (i + len marker)
  | None => PyNone
  end.

(** ** Observations on the call log *)

(** An outcome of a target with both a failing test case and crash output. *)
Definition crashed (test_case stack_trace : option pystr) : bool :=
  truthy_opt test_case && truthy_opt stack_trace.

(** The targets executed, in order: path, allotted seconds, crash or not. *)
Fixpoint fuzz_log (t : list call) : list (pystr * Z * bool) :=
  match t with
  | [] => []
  | Fuzz p d _ _ tc st :: t' => (p, d, crashed tc st) :: fuzz_log t'
  | _ :: t' => fuzz_log t'
  end.

(** The crash reports written. *)
Fixpoint reports (t : list call) : list pystr :=
  match t with
  | [] => []
  | Append _ s _ :: t' => s :: reports t'
  | _ :: t' => reports t'
  end.

(** The links fetched. *)
Fixpoint fetched (t : list call) : list pystr :=
  match t with
  | [] => []
  | Urlopen link _ :: t' => link :: fetched t'
  | _ :: t' => fetched t'
  end.

(** The seconds handed out to the targets executed, in total. *)
Definition allotted (t : list call) : Z :=
  foldr (fun entry acc => entry.1.2 + acc) 0 (fuzz_log t).

Definition is_raise {A} (r : outcome A) : bool :=
  match r with Ret _ => false | Raise _ => true end.

(** An outcome that gets past [except urllib.error.HTTPError]. *)
Definition uncaught {A} (r : outcome A) : bool :=
  match r with
  | Ret _ => false
  | Raise e => negb (bool_decide (e = HTTPError))
  end.

(** A call that ended in an exception the program does not handle: the
    fetch and the extraction are inside the [try], the other calls are
    not. *)
Definition failed (c : call) : bool :=
  match c with
  | Makedirs _ r | Move _ _ r | Append _ _ r => is_raise r
  | Urlopen _ r => uncaught r
  | Extractall _ _ r => uncaught r
  | Discover _ _ | Fuzz _ _ _ _ _ _ => false
  end.

(** The entry of the log for a target that ran clean. *)
Definition clean (duration : Z) (p : pystr) : pystr * Z * bool :=
  (p, duration, false).

(** The dates [download_latest_corpus] has a link for, first to last. *)
Definition candidate_links `{Env} (project_name target : pystr) (today : Z)
  : list pystr :=
  (fun day_diff => http_link project_name target (strftime_ymd (today - day_diff)))
    <$> range 90 100.

(** ** A scripted environment

    A collaborator set that can be run: the targets found, which of them
    crash and with what, the projects known, today's ordinal and what the
    network answers are all given up front. *)

(** [n] in decimal, zero-padded to [width] digits. *)
Fixpoint decimal (width : nat) (n : Z) : pystr :=
  match width with
  | O => []
  | S w => decimal w (n / 10) ++ [Z.to_N (48 + n mod 10)]
  end.

(** Year, month and day of a proleptic Gregorian ordinal (day 1 is
    0001-01-01). *)
Definition ymd_of_ordinal (ordinal : Z) : Z * Z * Z :=
  let z := ordinal + 305 in
  let era := z / 146097 in
  let doe := z - era * 146097 in
  let yoe := (doe - doe / 1460 + doe / 36524 - doe / 146096) / 365 in
  let doy := doe - (365 * yoe + yoe / 4 - yoe / 100) in
  let mp := (5 * doy + 2) / 153 in
  let d := doy - (153 * mp + 2) / 5 + 1 in
  let m := if mp <? 10 then mp + 3 else mp - 9 in
  let y := yoe + era * 400 + (if m <=? 2 then 1 else 0) in
  (y, m, d).

Definition iso_date (ordinal : Z) : pystr :=
  let '(y, m, d) := ymd_of_ordinal ordinal in
  decimal 4 y ++ py "-" ++ decimal 2 m ++ py "-" ++ decimal 2 d.

Record script := Script {
  s_targets : list pystr;
  s_crash : pystr -> option (pystr * pystr);
  s_projects : list pystr;
  s_today : Z;
  s_net : pystr -> outcome pystr;
}.

Definition scripted (s : script) : Env := {|
  Ext := unit;
  get_fuzz_targets := fun _ _ _ => s_targets s;
  fuzz := fun path _ _ _ fs ext =>
    match s_crash s path with
    | Some (test_case, stack_trace) =>
        ((Some test_case, Some stack_trace),
         <[test_case := File (py "crashing input")]> fs, ext)
    | None => ((None, None), fs, ext)
    end;
  check_project_exists := fun name _ _ => bool_decide (name ∈ s_projects s);
  now := fun _ => s_today s;
  strftime_ymd := iso_date;
  urlopen_read := fun link ext => (s_net s link, ext);
  extractall := fun body dest fs =>
    (Ret tt, <[Path.join dest [py "seed"] := File body]> fs);
  shutil_move := fun src dst fs =>
    match fs !! src with
    | Some n => (Ret tt, <[dst := n]> (delete src fs))
    | None => (Raise FileNotFoundError, fs)
    end;
|}.

(** Three targets [a], [b], [c] under [/w/out]; [b] crashes. *)
Definition abc_crash (path : pystr) : option (pystr * pystr) :=
  if bool_decide (path = py "/w/out/b")
  then Some (py "/w/out/crash-1",
             py "==1==ERROR: AddressSanitizer: heap-use-after-free ==1==ABORTING")
  else None.

Definition abc : script := {|
  s_targets := [py "/w/out/a"; py "/w/out/b"; py "/w/out/c"];
  s_crash := abc_crash;
  s_projects := [py "zlib"];
  s_today := 737425;
  s_net := fun _ => Raise HTTPError;
|}.

Definition abc_world : @world (scripted abc) :=
  @World (scripted abc) {[ py "/w" := Dir ]} tt.

(** The same, with every archive on the network. *)
Definition abc_online : script := {|
  s_targets := s_targets abc;
  s_crash := abc_crash;
  s_projects := [py "zlib"];
  s_today := 737425;
  s_net := fun _ => Ret (py "PK");
|}.

Definition abc_online_world : @world (scripted abc_online) :=
  @World (scripted abc_online) {[ py "/w" := Dir ]} tt.

(** The corpus link for target [a] of [zlib], 90 days before 2020-01-01. *)
Definition zlib_a_link : pystr :=
  py "https://storage.googleapis.com/zlib-backup.clusterfuzz-external.appspot.com/corpus/libFuzzer/zlib_a/2019-10-03.zip".

Definition asan_trace : pystr :=
  py "==1==ERROR: AddressSanitizer: heap-use-after-free ==1==ABORTING".

Definition asan_summary : pystr :=
  py "AddressSanitizer: heap-use-after-free ==1==ABORTING".

(** ** [build_fuzzers] *)

(** Exceptions the build path raises or handles. *)
Definition AssertionError : exn := OtherError 1.
Definition RuntimeError : exn := OtherError 2.
Definition ValueError : exn := OtherError 3.

(** A [repo_manager.RepoManager] object, as built from its arguments. *)
Record repo_manager := RepoManager {
  repo_url : pystr;
  base_dir : pystr;
  repo_name : pystr;
}.

(** The collaborators of the build path.  Each may change the file system
    and the state outside it, and may let an exception escape. *)
Class BuildEnv `{Env} := {
  (** [build_specified_commit.detect_main_repo(project_name, repo_name=...)],
      which yields [(inferred_url, oss_fuzz_repo_path)], each a string or
      [None] *)
  detect_main_repo : pystr -> pystr -> filesys -> Ext ->
      outcome (option pystr * option pystr) * filesys * Ext;
  (** [repo_manager.RepoManager(url, base_dir, repo_name=...)] *)
  repo_manager_init : repo_manager -> filesys -> Ext ->
      outcome unit * filesys * Ext;
  (** [manager.checkout_pr(pr_ref)] *)
  checkout_pr : repo_manager -> option pystr -> filesys -> Ext ->
      outcome unit * filesys * Ext;
  (** [manager.checkout_commit(commit_sha)] *)
  checkout_commit : repo_manager -> option pystr -> filesys -> Ext ->
      outcome unit * filesys * Ext;
  (** [utils.get_container_name()], a string or [None] *)
  get_container_name : filesys -> Ext -> option pystr;
  (** [helper.docker_run(command)], the exit status of the container *)
  docker_run : list pystr -> filesys -> Ext -> Z * filesys * Ext;
}.

(** A collaborator call as a step of the monad. *)
Definition collab `{Env} {A}
    (f : filesys -> Ext -> outcome A * filesys * Ext) : M A :=
  fun w =>
    let '(r, fs', ext') := f (w_fs w) (w_ext w) in
    (r, World _ fs' ext', []).

(** The arguments handed to [helper.docker_run]. *)
Definition build_command (project_name out_dir git_workspace src_in_docker
    oss_fuzz_repo_name : pystr) (container : option pystr) : list pystr :=
  let command :=
    [py "--cap-add"; py "SYS_PTRACE"; py "-e"; py "FUZZING_ENGINE=libfuzzer";
     py "-e"; py "SANITIZER=address"; py "-e"; py "ARCHITECTURE=x86_64"] in
  let '(command, bash_command) :=
    if truthy_opt container
    then
      (command ++ [py "-e"; py "OUT=" ++ out_dir; py "--volumes-from";
                   default [] container],
       py "rm -rf " ++ Path.join src_in_docker [oss_fuzz_repo_name; py "*"]
       ++ py " && cp -r " ++ Path.join git_workspace [oss_fuzz_repo_name]
       ++ py " " ++ src_in_docker ++ py " && compile")
    else
      (command ++ [py "-e"; py "OUT=" ++ py "/out"; py "-v";
                   Path.join git_workspace [oss_fuzz_repo_name] ++ py ":"
                   ++ Path.join src_in_docker [oss_fuzz_repo_name];
                   py "-v"; out_dir ++ py ":" ++ py "/out"],
       py "compile") in
  (command ++ [py "gcr.io/oss-fuzz/" ++ project_name; py "/bin/bash"; py "-c"])
  ++ [bash_command].

(** The [try] around the checkout: the pull request when one is given,
    the commit otherwise; [RuntimeError] and [ValueError] end the build
    with [False].  The two handlers also log a message, left out here
    like all logging; the one for [ValueError] prints [commit_sha],
    whichever checkout raised. *)
Definition checkout `{BuildEnv} (build_repo_manager : repo_manager)
    (pr_ref commit_sha : option pystr) : M (ctl bool) :=
  try_except
    (try_except
       ((if truthy_opt pr_ref
         then collab (checkout_pr build_repo_manager pr_ref)
         else collab (checkout_commit build_repo_manager commit_sha)) ;;
        ret Next)
       RuntimeError
       (ret (Return false)))
    ValueError
    (ret (Return false)).

Definition build_fuzzers `{BuildEnv} (project_name project_repo_name
    workspace : pystr) (pr_ref commit_sha : option pystr) : M bool :=
  if negb (truthy_opt pr_ref || truthy_opt commit_sha)
  then raise AssertionError
  else
    there <- exists_ workspace ;;
    if negb there then ret false
    else
      let git_workspace := Path.join workspace [py "storage"] in
      makedirs git_workspace ;;
      let out_dir := Path.join workspace [py "out"] in
      makedirs out_dir ;;
      detected <- collab (detect_main_repo project_name project_repo_name) ;;
      let '(inferred_url, oss_fuzz_repo_path) := detected in
      match inferred_url, oss_fuzz_repo_path with
      | Some url, Some repo_path =>
          if negb (truthy_str url) || negb (truthy_str repo_path)
          then ret false
          else
            let src_in_docker := Path.dirname repo_path in
            let oss_fuzz_repo_name := Path.basename repo_path in
            let build_repo_manager :=
              RepoManager url git_workspace oss_fuzz_repo_name in
            collab (repo_manager_init build_repo_manager) ;;
            c <- checkout build_repo_manager pr_ref commit_sha ;;
            match c with
            | Return v => ret v
            | _ =>
                container <-
                  (fun w => (Ret (get_container_name (w_fs w) (w_ext w)), w, [])) ;;
                let command :=
                  build_command project_name out_dir git_workspace
                    src_in_docker oss_fuzz_repo_name container in
                status <-
                  collab (fun fs ext =>
                            let '(z, fs', ext') := docker_run command fs ext in
                            (Ret z, fs', ext')) ;;
                if truthy_int status then ret false else ret true
            end
      | _, _ => ret false
      end.

(** The corpus directory handed to each target executed, in order. *)
Fixpoint fuzz_corpora (t : list call) : list (option pystr) :=
  match t with
  | [] => []
  | Fuzz _ _ _ corpus_dir _ _ :: t' => corpus_dir :: fuzz_corpora t'
  | _ :: t' => fuzz_corpora t'
  end.

(** The directories [os.makedirs] was called on, in order. *)
Fixpoint made_dirs (t : list call) : list pystr :=
  match t with
  | [] => []
  | Makedirs p _ :: t' => p :: made_dirs t'
  | _ :: t' => made_dirs t'
  end.

(** A scripted build: what repository detection, the checkout and the
    container give back are fixed up front; the checkout leaves a marker
    file in the storage directory and the build one in the output
    directory, so that what ran can be read off the file system. *)
Record build_script := BuildScript {
  b_detected : option pystr * option pystr;
  b_checkout : outcome unit;
  b_container : option pystr;
  b_status : Z;
}.

Definition scripted_build (s : script) (b : build_script)
  : @BuildEnv (scripted s) := {|
  detect_main_repo := fun _ _ fs ext => (Ret (b_detected b), fs, ext);
  repo_manager_init := fun _ fs ext => (Ret tt, fs, ext);
  checkout_pr := fun m ref fs ext =>
    (b_checkout b,
     <[Path.join (base_dir m) [py "HEAD"] := File (py "pr:" ++ default [] ref)]> fs,
     ext);
  checkout_commit := fun m sha fs ext =>
    (b_checkout b,
     <[Path.join (base_dir m) [py "HEAD"] := File (py "commit:" ++ default [] sha)]> fs,
     ext);
  get_container_name := fun _ _ => b_container b;
  docker_run := fun command fs ext =>
    (b_status b, <[py "/w/out/built" := File (default [] (last command))]> fs, ext);
|}.

Definition zlib_build : build_script := {|
  b_detected := (Some (py "https://github.com/madler/zlib.git"),
                 Some (py "/src/zlib"));
  b_checkout := Ret tt;
  b_container := None;
  b_status := 0;
|}.

(** * Properties *)

(** ** The primitives on examples *)

Example find_present :
  Str.find (py "xxERROR: libFuzzer") (py "ERROR: libFuzzer") = 2.
Proof. reflexivity. Qed.

Example find_absent : Str.find (py "xxERROR: libFuzzer") (py "ASAN:") = -1.
Proof. reflexivity. Qed.

Example rfind_last : Str.rfind (py "/w/out/b") (py "/") = 6.
Proof. reflexivity. Qed.

Example slice_negative_start :
  py_slice (py "abc") (PyInt (-1)) (PyInt 7) = py "c".
Proof. reflexivity. Qed.

Example slice_crossed : py_slice (py "abcdefghij") (PyInt (-1)) (PyInt 7) = [].
Proof. reflexivity. Qed.

Example join_plain : Path.join (py "/w") [py "out"; py "artifacts"]
                     = py "/w/out/artifacts".
Proof. reflexivity. Qed.

Example join_trailing_sep : Path.join (py "/w/") [py "out"] = py "/w/out".
Proof. reflexivity. Qed.

Example join_absolute : Path.join (py "/w") [py "/tmp"; py "x"] = py "/tmp/x".
Proof. reflexivity. Qed.

Example basename_target : Path.basename (py "/w/out/b") = py "b".
Proof. reflexivity. Qed.

Example dirname_summary : Path.dirname (py "/w/bug_summary.txt") = py "/w".
Proof. reflexivity. Qed.

Example ancestors_corpus :
  Path.ancestors (py "/w/corpus/a") = [py "/w"; py "/w/corpus"].
Proof. reflexivity. Qed.

Example iso_date_2020 : iso_date 737425 = py "2020-01-01".
Proof. reflexivity. Qed.

(** ** [str.find] *)

Lemma find_from_range (sub s : pystr) (i : Z) :
  Str.find_from i s sub = -1 \/ i <= Str.find_from i s sub <= i + len s.
Proof.
  revert i. induction s as [|c s IH]; intros i; cbn [Str.find_from].
  - destruct (Str.startswith [] sub); [right; unfold len; simpl; lia | now left].
  - destruct (Str.startswith (c :: s) sub).
    + right. unfold len. simpl length. lia.
    + destruct (IH (i + 1)) as [->|Hr]; [now left|].
      right. unfold len in *. simpl length. lia.
Qed.

(** [find] gives [0] exactly when the text starts with the marker. *)
Lemma find_zero_startswith (s sub : pystr) :
  Str.find s sub = 0 <-> Str.startswith s sub = true.
Proof.
  unfold Str.find. destruct s as [|c s]; cbn [Str.find_from].
  - destruct (Str.startswith [] sub); split; intros; try easy.
  - destruct (Str.startswith (c :: s) sub); split; intros H; try easy.
    change (0 + 1) with 1 in H.
    destruct (find_from_range sub s 1) as [Hr|Hr]; lia.
Qed.

Lemma truthy_find (s sub : pystr) :
  truthy_int (Str.find s sub) = negb (Str.startswith s sub).
Proof.
  unfold truthy_int.
  destruct (Str.startswith s sub) eqn:Hs; simpl.
  - apply find_zero_startswith in Hs. now rewrite Hs.
  - destruct (Z.eqb_spec (Str.find s sub) 0) as [H0|H0]; [|reflexivity].
    apply find_zero_startswith in H0. congruence.
Qed.

(** An absent marker gives [-1], which is true as a condition. *)
Lemma absent_is_truthy (s sub : pystr) :
  Str.contains s sub = false ->
  Str.find s sub = -1 /\ truthy_int (Str.find s sub) = true.
Proof.
  unfold Str.contains. intros H.
  destruct (Z.eqb_spec (Str.find s sub) (-1)) as [E|E]; [|discriminate].
  now rewrite E.
Qed.

(** ** The two loops of [parse_fuzzer_output] *)

Ltac eval_py :=
  repeat match goal with
  | |- context [py ?x] =>
      let v := eval vm_compute in (py x) in change (py x) with v
  end.

(** No text starts with both of the first two start markers. *)
Lemma tool_markers_head (s : pystr) :
  Str.startswith s (py "AddressSanitizer") = true ->
  Str.startswith s (py "ASAN:") = false.
Proof.
  eval_py. intros H.
  destruct s as [|a [|b s]]; cbn [Str.startswith] in *; try discriminate.
  - rewrite andb_false_r in H. discriminate.
  - apply andb_true_iff in H as [Ha H]. apply andb_true_iff in H as [Hb _].
    apply N.eqb_eq in Ha, Hb. subst a b. reflexivity.
Qed.

(** Nor with both of the first two end markers. *)
Lemma end_markers_head (s : pystr) :
  Str.startswith s (py "ABORTING") = true ->
  Str.startswith s (py "END MEMORY TOOL REPORT") = false.
Proof.
  eval_py. intros H.
  destruct s as [|a s]; cbn [Str.startswith] in *; try discriminate.
  apply andb_true_iff in H as [Ha _].
  apply N.eqb_eq in Ha. subst a. reflexivity.
Qed.

(** The first loop binds [begin_summary] at the first entry of the list,
    or at the second when the text starts with the first. *)
Lemma begin_loop_binds (fuzzer_output : pystr) :
  (Str.startswith fuzzer_output (py "AddressSanitizer") = false /\
   begin_loop fuzzer_output STACKTRACE_TOOL_MARKERS
   = Some (PyInt (Str.find fuzzer_output (py "AddressSanitizer"))))
  \/
  (Str.startswith fuzzer_output (py "AddressSanitizer") = true /\
   begin_loop fuzzer_output STACKTRACE_TOOL_MARKERS
   = Some (PyInt (Str.find fuzzer_output (py "ASAN:")))).
Proof.
  unfold STACKTRACE_TOOL_MARKERS.
  cbn [fmap list_fmap begin_loop].
  rewrite !truthy_find.
  destruct (Str.startswith fuzzer_output (py "AddressSanitizer")) eqn:H0; simpl.
  - right. split; [reflexivity|].
    now rewrite (tool_markers_head _ H0).
  - now left.
Qed.

Lemma end_loop_binds (fuzzer_output : pystr) (v : pyval) :
  (Str.startswith fuzzer_output (py "ABORTING") = false /\
   end_loop fuzzer_output STACKTRACE_END_MARKERS v
   = PyInt (Str.find fuzzer_output (py "ABORTING") + 8))
  \/
  (Str.startswith fuzzer_output (py "ABORTING") = true /\
   end_loop fuzzer_output STACKTRACE_END_MARKERS v
   = PyInt (Str.find fuzzer_output (py "END MEMORY TOOL REPORT") + 22)).
Proof.
  unfold STACKTRACE_END_MARKERS.
  cbn [fmap list_fmap end_loop].
  rewrite !truthy_find.
  destruct (Str.startswith fuzzer_output (py "ABORTING")) eqn:H0; simpl.
  - right. split; [reflexivity|].
    now rewrite (end_markers_head _ H0).
  - now left.
Qed.

(** What [parse_fuzzer_output] does, in terms of [extracted]. *)
Lemma parse_fuzzer_output_extracted `{Env} (fuzzer_output out_dir : pystr) :
  parse_fuzzer_output fuzzer_output out_dir
  = match extracted fuzzer_output with
    | Some summary_str =>
        append_file (Path.join out_dir [SUMMARY_FILE]) summary_str
    | None => ret tt
    end.
Proof.
  unfold parse_fuzzer_output, extracted.
  destruct (begin_loop_binds fuzzer_output) as [[_ ->]|[_ ->]];
    destruct (end_loop_binds fuzzer_output (PyInt (-1))) as [[_ ->]|[_ ->]];
    cbn [bounds_guard is_None orb];
    match goal with |- context [truthy_str ?s] => destruct (truthy_str s) end;
    reflexivity.
Qed.

(** When the text starts with neither first entry, the summary is cut
    at what [find] gives for those two entries, present or not. *)
Lemma extracted_first_entries (fuzzer_output : pystr) :
  Str.startswith fuzzer_output (py "AddressSanitizer") = false ->
  Str.startswith fuzzer_output (py "ABORTING") = false ->
  extracted fuzzer_output
  = let summary_str :=
      py_slice fuzzer_output
        (PyInt (Str.find fuzzer_output (py "AddressSanitizer")))
        (PyInt (Str.find fuzzer_output (py "ABORTING") + 8)) in
    if truthy_str summary_str then Some summary_str else None.
Proof.
  intros Hb He. unfold extracted.
  destruct (begin_loop_binds fuzzer_output) as [[_ ->]|[Hb' _]];
    [|congruence].
  destruct (end_loop_binds fuzzer_output (PyInt (-1))) as [[_ ->]|[He' _]];
    [|congruence].
  reflexivity.
Qed.

(** ** Appending to a file *)

Lemma open_append_ok (p s : pystr) (fs : filesys) :
  can_append p fs = true ->
  utf8_encodable s = true ->
  open_append p s fs
  = (Ret tt, <[p := File (default [] (read_file p fs) ++ s)]> fs).
Proof.
  unfold can_append, open_append, read_file.
  destruct (fs !! p) as [[|c]|]; intros Hc He; try discriminate; simpl.
  - now rewrite He.
  - now rewrite Hc, He.
Qed.

(** What [open_append] can raise, and what it has done by then: nothing,
    but for a file newly created and left empty when the text cannot be
    encoded. *)
Lemma open_append_raises (p s : pystr) (fs fs' : filesys) (e : exn) :
  open_append p s fs = (Raise e, fs') ->
  (fs' = fs /\
   (e = IsADirectoryError \/ e = NotADirectoryError \/
    e = FileNotFoundError \/ e = UnicodeEncodeError))
  \/ (fs !! p = None /\ fs' = <[p := File []]> fs /\ e = UnicodeEncodeError).
Proof.
  unfold open_append.
  destruct (fs !! p) as [[|c]|].
  - intros [= <- <-]. left. tauto.
  - destruct (utf8_encodable s); intros [= <- <-]. left. tauto.
  - destruct (Path.all_sep _ || os_path_isdir _ fs).
    + destruct (utf8_encodable s); intros [= <- <-]. now right.
    + destruct (existsb _ _); intros [= <- <-]; left; tauto.
Qed.

Lemma open_append_returns (p s : pystr) (fs fs' : filesys) :
  open_append p s fs = (Ret tt, fs') ->
  utf8_encodable s = true /\
  fs' = <[p := File (default [] (read_file p fs) ++ s)]> fs.
Proof.
  unfold open_append, read_file.
  destruct (fs !! p) as [[|c]|].
  - discriminate.
  - destruct (utf8_encodable s); intros [= <-]. easy.
  - destruct (Path.all_sep _ || os_path_isdir _ fs).
    + destruct (utf8_encodable s); intros [= <-]. easy.
    + destruct (existsb _ _); discriminate.
Qed.

Lemma can_append_after (p s : pystr) (fs : filesys) (c : pystr) :
  can_append p (<[p := File c]> fs) = true /\
  read_file p (<[p := File c]> fs) = Some c.
Proof.
  unfold can_append, read_file. now rewrite lookup_insert_eq.
Qed.

(** ** C9 *)

(** C9: [parse_fuzzer_output] never reads [begin_summary] unbound.  A
    marker that does not occur gives [-1], which is true as a condition,
    and no text starts with both of the first two start markers; so the
    first loop binds [begin_summary] at its first or its second entry and
    the rest of the list is never reached.  Both bounds are then integers
    and the [is None] guard is false.  The call never raises
    [UnboundLocalError]: it returns without writing, or ends as the
    [open] and [write] on the summary file end. *)
Theorem parse_fuzzer_output_never_unbound `{Env}
    (fuzzer_output out_dir : pystr) (w : world) :
  (forall marker,
     Str.contains fuzzer_output marker = false ->
     truthy_int (Str.find fuzzer_output marker) = true)
  /\ ~ (Str.find fuzzer_output (py "AddressSanitizer") = 0 /\
        Str.find fuzzer_output (py "ASAN:") = 0)
  /\ begin_loop fuzzer_output STACKTRACE_TOOL_MARKERS
     = begin_loop fuzzer_output (take 2 STACKTRACE_TOOL_MARKERS)
  /\ (exists b e,
        begin_loop fuzzer_output STACKTRACE_TOOL_MARKERS = Some (PyInt b) /\
        end_loop fuzzer_output STACKTRACE_END_MARKERS (PyInt (-1)) = PyInt e /\
        bounds_guard (PyInt b) (PyInt e) = false)
  /\ (let res := (parse_fuzzer_output fuzzer_output out_dir w).1.1 in
      let summary_file_path := Path.join out_dir [SUMMARY_FILE] in
      res <> Raise UnboundLocalError
      /\ ((extracted fuzzer_output = None /\ res = Ret tt)
          \/ exists summary_str,
               extracted fuzzer_output = Some summary_str /\
               res = (open_append summary_file_path summary_str (w_fs w)).1)).
Proof.
  split; [|split; [|split; [|split]]].
  - intros marker Hm. now apply absent_is_truthy.
  - intros [H0 H1]. apply find_zero_startswith in H0, H1.
    rewrite (tool_markers_head _ H0) in H1. discriminate.
  - destruct (begin_loop_binds fuzzer_output) as [[H0 ->]|[H0 ->]];
      unfold STACKTRACE_TOOL_MARKERS; cbn [fmap list_fmap take begin_loop];
      rewrite !truthy_find, H0; cbn [negb].
    + reflexivity.
    + now rewrite (tool_markers_head _ H0).
  - destruct (begin_loop_binds fuzzer_output) as [[_ ->]|[_ ->]];
      destruct (end_loop_binds fuzzer_output (PyInt (-1))) as [[_ ->]|[_ ->]];
      eauto.
  - cbn zeta. rewrite parse_fuzzer_output_extracted.
    destruct (extracted fuzzer_output) as [s|].
    2:{ split; [discriminate|]. now left. }
    unfold append_file.
    destruct (open_append (Path.join out_dir [SUMMARY_FILE]) s (w_fs w))
      as [[[]|e] fs'] eqn:Ho; cbn [fst].
    + split; [discriminate|]. right. exists s. now rewrite Ho.
    + split; [|right; exists s; now rewrite Ho].
      apply open_append_raises in Ho
        as [(_ & [->|[->|[->| ->]]])|(_ & _ & ->)]; discriminate.
Qed.

(** Counterexample to C9 read as freedom from every fault: on the text
    that is the one character U+D800 the slice [text[-1:7]] is that
    character, which [write] cannot encode, and the call raises
    [UnicodeEncodeError] with the output directory in place; and on an
    ordinary report the call raises [FileNotFoundError] when the output
    directory is missing. *)
Lemma parse_fuzzer_output_can_fault :
  extracted [55296%N] = Some [55296%N]
  /\ (@parse_fuzzer_output (scripted abc) [55296%N] (py "/w") abc_world).1.1
     = Raise UnicodeEncodeError
  /\ (@parse_fuzzer_output (scripted abc) asan_trace (py "/nowhere")
        abc_world).1.1
     = Raise FileNotFoundError.
Proof. repeat split; vm_compute; reflexivity. Qed.

(** ** C8 *)

(** C8: two calls of [parse_fuzzer_output] with the same output directory,
    each on a text from which a non-empty summary is extracted that can
    be encoded, with a summary file that can be opened for appending,
    leave the summary file holding what it held before, then the first
    summary, then the second. *)
Theorem parse_fuzzer_output_twice_appends `{Env}
    (out1 out2 out_dir s1 s2 : pystr) (w : world) :
  extracted out1 = Some s1 ->
  extracted out2 = Some s2 ->
  utf8_encodable s1 = true ->
  utf8_encodable s2 = true ->
  can_append (Path.join out_dir [SUMMARY_FILE]) (w_fs w) = true ->
  let summary_file_path := Path.join out_dir [SUMMARY_FILE] in
  let before := default [] (read_file summary_file_path (w_fs w)) in
  let '(r1, w1, t1) := parse_fuzzer_output out1 out_dir w in
  let '(r2, w2, t2) := parse_fuzzer_output out2 out_dir w1 in
  r1 = Ret tt /\ r2 = Ret tt
  /\ s1 <> [] /\ s2 <> []
  /\ read_file summary_file_path (w_fs w1) = Some (before ++ s1)
  /\ read_file summary_file_path (w_fs w2) = Some (before ++ s1 ++ s2)
  /\ reports (t1 ++ t2) = [s1; s2]
  /\ (forall q, q <> summary_file_path -> w_fs w2 !! q = w_fs w !! q).
Proof.
  intros E1 E2 U1 U2 Hc. cbn zeta.
  rewrite !parse_fuzzer_output_extracted, E1, E2.
  unfold append_file at 1. rewrite (open_append_ok _ s1 _ Hc U1).
  unfold append_file. cbn [w_fs].
  destruct (can_append_after (Path.join out_dir [SUMMARY_FILE]) s1 (w_fs w)
              (default [] (read_file (Path.join out_dir [SUMMARY_FILE]) (w_fs w)) ++ s1))
    as [Hc' Hr'].
  rewrite (open_append_ok _ s2 _ Hc' U2). cbn [w_fs]. rewrite Hr'. cbn [default].
  repeat split; try reflexivity.
  - intros ->. unfold extracted in E1.
    destruct (begin_loop out1 _); [|discriminate].
    destruct (bounds_guard _ _); [discriminate|].
    destruct (py_slice out1 _ _) eqn:Hs; simpl in E1; congruence.
  - intros ->. unfold extracted in E2.
    destruct (begin_loop out2 _); [|discriminate].
    destruct (bounds_guard _ _); [discriminate|].
    destruct (py_slice out2 _ _) eqn:Hs; simpl in E2; congruence.
  - unfold read_file, id. rewrite lookup_insert_eq. now rewrite <- app_assoc.
  - intros q Hq. now rewrite !lookup_insert_ne by congruence.
Qed.

(** Counterexample to C8 without the condition on the slices: a
    non-empty slice need not reach the file.  From the text that is the
    one character U+D800 that character is extracted; both calls raise in
    [write], and the summary file, not there before, is left empty. *)
Lemma parse_fuzzer_output_twice_not_appended :
  let text := [55296%N] in
  let summary_file_path := Path.join (py "/w") [SUMMARY_FILE] in
  let '(r1, w1, t1) :=
    @parse_fuzzer_output (scripted abc) text (py "/w") abc_world in
  let '(r2, w2, t2) :=
    @parse_fuzzer_output (scripted abc) text (py "/w") w1 in
  extracted text = Some text
  /\ can_append summary_file_path (w_fs abc_world) = true
  /\ r1 = Raise UnicodeEncodeError /\ r2 = Raise UnicodeEncodeError
  /\ read_file summary_file_path (w_fs w2) = Some []
  /\ read_file summary_file_path (w_fs w2) <> Some (text ++ text).
Proof. vm_compute. repeat split; discriminate. Qed.

(** ** C5 *)

(** C5: a text with no start marker in it is not left unwritten.  On
    ["==1==ABORTING"] the first loop binds [begin_summary] to the [-1] that
    [find] gives for the absent first marker, the slice [text[-1:13]] is
    the last character, and that character is appended to a summary file
    that was not there before. *)
Theorem parse_fuzzer_output_writes_without_start_marker :
  let text := py "==1==ABORTING" in
  let summary_file_path := py "/w/bug_summary.txt" in
  let '(r, w', t) :=
    @parse_fuzzer_output (scripted abc) text (py "/w") abc_world in
  Forall (fun marker => Str.contains text marker = false)
         STACKTRACE_TOOL_MARKERS
  /\ spec_start text = None
  /\ begin_loop text STACKTRACE_TOOL_MARKERS = Some (PyInt (-1))
  /\ r = Ret tt
  /\ read_file summary_file_path (w_fs abc_world) = None
  /\ read_file summary_file_path (w_fs w') = Some (py "G")
  /\ reports t = [py "G"].
Proof.
  vm_compute. repeat split; repeat constructor.
Qed.

(** ** C3 *)

(** C3: on a text with ["ERROR: libFuzzer"] and, later, ["SUMMARY:"],
    nothing is written.  Neither first entry of the two lists occurs, so
    [begin_summary] is [-1] and [end_summary] is [-1 + 8]; the slice
    [text[-1:7]] of the 70 characters is empty.  The text between the two
    markers, which the summary file was to hold, is not. *)
Theorem parse_fuzzer_output_misses_libfuzzer_summary :
  let text := py "==1==ERROR: libFuzzer: deadly signal" ++ py NL
              ++ py "SUMMARY: libFuzzer: deadly signal" in
  let i := Str.find text (py "ERROR: libFuzzer") in
  let j := Str.find text (py "SUMMARY:") + len (py "SUMMARY:") in
  let '(r, w', t) :=
    @parse_fuzzer_output (scripted abc) text (py "/w") abc_world in
  0 <= i < j
  /\ py_slice text (PyInt i) (PyInt j)
     = py "ERROR: libFuzzer: deadly signal" ++ py NL ++ py "SUMMARY:"
  /\ begin_loop text STACKTRACE_TOOL_MARKERS = Some (PyInt (-1))
  /\ end_loop text STACKTRACE_END_MARKERS (PyInt (-1)) = PyInt 7
  /\ extracted text = None
  /\ r = Ret tt /\ t = []
  /\ read_file (py "/w/bug_summary.txt") (w_fs w') = None.
Proof.
  vm_compute. repeat split; congruence.
Qed.

(** ** C2 *)

(** C2: the start index is not that of the first listed marker that
    occurs.  In ["==1==ERROR: libFuzzer: deadly signal"] that marker is
    ["ERROR: libFuzzer"], at index 5; the loop stops at the first entry of
    the list, which does not occur, and binds [begin_summary] to [-1]. *)
Theorem begin_loop_takes_absent_marker :
  let text := py "==1==ERROR: libFuzzer: deadly signal" in
  Str.contains text (py "AddressSanitizer") = false
  /\ spec_first_match text STACKTRACE_TOOL_MARKERS
     = Some (py "ERROR: libFuzzer", 5)
  /\ spec_start text = Some 5
  /\ begin_loop text STACKTRACE_TOOL_MARKERS = Some (PyInt (-1)).
Proof.
  vm_compute. repeat split.
Qed.

(** ** C4 *)

(** C4: the end bound is not the position after the matched end marker,
    and a text without end marker is not cut at its end.  In the first
    text the only end marker is ["SUMMARY:"], which ends at 43; in the
    second there is none; in both the loop stops at ["ABORTING"], which
    does not occur, and [end_summary] is [-1 + 8].  The slice from 12 to 7
    is empty and nothing is extracted. *)
Theorem end_loop_takes_absent_marker :
  let text1 := py "==1==ERROR: AddressSanitizer: SEGV" ++ py NL
               ++ py "SUMMARY: AddressSanitizer: SEGV" in
  let text2 := py "==1==ERROR: AddressSanitizer: SEGV on unknown address" in
  (spec_first_match text1 STACKTRACE_END_MARKERS = Some (py "SUMMARY:", 35)
   /\ spec_end text1 = PyInt 43
   /\ end_loop text1 STACKTRACE_END_MARKERS (PyInt (-1)) = PyInt 7)
  /\
  (spec_first_match text2 STACKTRACE_END_MARKERS = None
   /\ spec_end text2 = PyNone
   /\ begin_loop text2 STACKTRACE_TOOL_MARKERS = Some (PyInt 12)
   /\ py_slice text2 (PyInt 12) PyNone
      = py "AddressSanitizer: SEGV on unknown address"
   /\ end_loop text2 STACKTRACE_END_MARKERS (PyInt (-1)) = PyInt 7
   /\ extracted text2 = None).
Proof.
  vm_compute. repeat split.
Qed.

(** ** Running the monad *)

Lemma bind_run `{Env} {A B} (m : M A) (f : A -> M B) (w : world) :
  bind m f w
  = match m w with
    | (Ret a, w1, t1) =>
        match f a w1 with (r, w2, t2) => (r, w2, t1 ++ t2) end
    | (Raise e, w1, t1) => (Raise e, w1, t1)
    end.
Proof.
  unfold bind. destruct (m w) as [[[a|e] w1] t1]; [|reflexivity].
  now destruct (f a w1) as [[r w2] t2].
Qed.

Lemma fuzz_log_app (t1 t2 : list call) :
  fuzz_log (t1 ++ t2) = fuzz_log t1 ++ fuzz_log t2.
Proof.
  induction t1 as [|c t1 IH]; [reflexivity|].
  destruct c; simpl; now rewrite ?IH.
Qed.

Lemma reports_app (t1 t2 : list call) :
  reports (t1 ++ t2) = reports t1 ++ reports t2.
Proof.
  induction t1 as [|c t1 IH]; [reflexivity|].
  destruct c; simpl; now rewrite ?IH.
Qed.

Lemma fetched_app (t1 t2 : list call) :
  fetched (t1 ++ t2) = fetched t1 ++ fetched t2.
Proof.
  induction t1 as [|c t1 IH]; [reflexivity|].
  destruct c; simpl; now rewrite ?IH.
Qed.

(** ** [os.makedirs] *)

Lemma os_makedirs_isdir (p : pystr) (fs fs1 : filesys) :
  os_makedirs p fs = (Ret tt, fs1) -> os_path_isdir p fs1 = true.
Proof.
  unfold os_makedirs, os_path_isdir.
  destruct (foldl (mkdir_step false) (Ret (), fs) (Path.ancestors p))
    as [[[]|e] fs0]; cbn [mkdir_step]; [|discriminate].
  destruct (fs0 !! p) as [[|c]|] eqn:Hp; intros [= <-].
  - now rewrite Hp.
  - now rewrite lookup_insert_eq.
Qed.

Lemma mkdir_step_keeps (leaf : bool) (acc : outcome unit * filesys)
    (p q : pystr) :
  is_Some (acc.2 !! q) -> is_Some ((mkdir_step leaf acc p).2 !! q).
Proof.
  destruct acc as [[[]|e] fs0]; cbn [mkdir_step snd]; [|easy].
  destruct (fs0 !! p) as [[|c]|] eqn:Hp; cbn [snd]; try easy.
  intros Hq. destruct (decide (p = q)) as [->|Hne].
  - rewrite lookup_insert_eq. eauto.
  - now rewrite lookup_insert_ne.
Qed.

(** ** One probe of [download_latest_corpus] *)

Lemma probe_day_run `{Env} (project_name target corpus_dir : pystr)
    (current_date day_diff : Z) (w : world) :
  let link :=
    http_link project_name target (strftime_ymd (current_date - day_diff)) in
  probe_day project_name target corpus_dir current_date day_diff w
  = match urlopen_read link (w_ext w) with
    | (Ret body, ext') =>
        match extractall body corpus_dir (w_fs w) with
        | (Ret u, fs2) =>
            (Ret (Return (Some corpus_dir)), World _ fs2 ext',
             [Urlopen link (Ret body); Extractall body corpus_dir (Ret u)])
        | (Raise e, fs2) =>
            (if decide (e = HTTPError) then Ret (Return None) else Raise e,
             World _ fs2 ext',
             [Urlopen link (Ret body); Extractall body corpus_dir (Raise e)])
        end
    | (Raise e, ext') =>
        (if decide (e = HTTPError) then Ret (Return None) else Raise e,
         World _ (w_fs w) ext', [Urlopen link (Raise e)])
    end.
Proof.
  cbn zeta. unfold probe_day. rewrite bind_run.
  unfold try_except. rewrite bind_run. unfold urlopen at 1.
  destruct (urlopen_read _ (w_ext w)) as [[body|e] ext'].
  - rewrite bind_run. unfold extract_zip. cbn [w_fs w_ext].
    destruct (extractall body corpus_dir (w_fs w)) as [[u|e] fs2].
    + reflexivity.
    + destruct (decide (e = HTTPError)); reflexivity.
  - destruct (decide (e = HTTPError)); reflexivity.
Qed.

(** A probe never falls through to the next day offset. *)
Lemma probe_day_returns `{Env} (project_name target corpus_dir : pystr)
    (current_date day_diff : Z) (w : world) :
  let r := (probe_day project_name target corpus_dir current_date day_diff w).1.1 in
  r <> Ret Next /\ r <> Ret Break.
Proof.
  cbn zeta. rewrite probe_day_run.
  destruct (urlopen_read _ (w_ext w)) as [[body|e] ext'].
  - destruct (extractall body corpus_dir (w_fs w)) as [[u|e] fs2]; [easy|].
    destruct (decide (e = HTTPError)); easy.
  - destruct (decide (e = HTTPError)); easy.
Qed.

Lemma for_in_first `{Env} {X R} (x : X) (xs : list X) (body : X -> M (ctl R))
    (w : world) :
  (body x w).1.1 <> Ret Next ->
  for_in (x :: xs) body w
  = match body x w with
    | (Ret (Return r), w1, t1) => (Ret (Some r), w1, t1)
    | (Ret _, w1, t1) => (Ret None, w1, t1)
    | (Raise e, w1, t1) => (Raise e, w1, t1)
    end.
Proof.
  cbn [for_in]. rewrite bind_run.
  destruct (body x w) as [[[[| |r]|e] w1] t1]; cbn [fst]; intros Hn;
    try congruence; unfold ret; now rewrite app_nil_r.
Qed.

Lemma range_90_100 : range 90 100 = 90 :: range 91 100.
Proof. reflexivity. Qed.

(** [download_latest_corpus] once the two checks have passed. *)
Lemma download_latest_corpus_run `{Env} (project_name out_dir target : pystr)
    (w : world) :
  check_project_exists project_name (w_fs w) (w_ext w) = true ->
  os_path_exists out_dir (w_fs w) = true ->
  let corpus_dir := Path.join out_dir [py "corpus"; target] in
  download_latest_corpus project_name out_dir target w
  = match os_makedirs corpus_dir (w_fs w) with
    | (Ret _, fs1) =>
        match probe_day project_name target corpus_dir (now (w_ext w)) 90
                (World _ fs1 (w_ext w)) with
        | (Ret (Return v), w2, t2) =>
            (Ret v, w2, Makedirs corpus_dir (Ret tt) :: t2)
        | (Ret _, w2, t2) =>
            (Ret None, w2, Makedirs corpus_dir (Ret tt) :: t2)
        | (Raise e, w2, t2) =>
            (Raise e, w2, Makedirs corpus_dir (Ret tt) :: t2)
        end
    | (Raise e, fs1) =>
        (Raise e, World _ fs1 (w_ext w), [Makedirs corpus_dir (Raise e)])
    end.
Proof.
  intros Hk Ht. cbn zeta. unfold download_latest_corpus.
  rewrite bind_run. unfold project_exists at 1. rewrite Hk. cbn [negb].
  rewrite bind_run. unfold exists_ at 1. rewrite Ht. cbn [negb].
  rewrite bind_run. unfold makedirs at 1.
  destruct (os_makedirs _ (w_fs w)) as [[[]|e] fs1]; [|reflexivity].
  rewrite bind_run. unfold datetime_now at 1. cbn [w_ext w_fs].
  rewrite bind_run, range_90_100, for_in_first
    by apply probe_day_returns.
  destruct (probe_day _ _ _ _ _ _) as [[[[| |v]|e] w2] t2];
    unfold ret; cbn [app]; now rewrite ?app_nil_r.
Qed.

(** ** C7 *)

(** C7: a call of [download_latest_corpus] for a known project and an
    existing output directory has a candidate date for each day offset
    from 90 to 99, each the current date less the offset, and fetches the
    first one only.  When that archive is fetched and extracted, into
    [out_dir/corpus/target], that directory is returned; when the fetch
    ends in [HTTPError], [None] is returned.  In both cases, and in every
    other, no second link is fetched. *)
Theorem download_latest_corpus_first_candidate_only `{Env}
    (project_name out_dir target : pystr) (w : world) (fs1 : filesys) :
  check_project_exists project_name (w_fs w) (w_ext w) = true ->
  os_path_exists out_dir (w_fs w) = true ->
  let corpus_dir := Path.join out_dir [py "corpus"; target] in
  os_makedirs corpus_dir (w_fs w) = (Ret tt, fs1) ->
  let today := now (w_ext w) in
  let link := http_link project_name target (strftime_ymd (today - 90)) in
  range 90 100 = [90; 91; 92; 93; 94; 95; 96; 97; 98; 99]
  /\ candidate_links project_name target today
     = (fun day_diff =>
          http_link project_name target (strftime_ymd (today - day_diff)))
       <$> [90; 91; 92; 93; 94; 95; 96; 97; 98; 99]
  /\ (forall body ext' fs2,
        urlopen_read link (w_ext w) = (Ret body, ext') ->
        extractall body corpus_dir fs1 = (Ret tt, fs2) ->
        download_latest_corpus project_name out_dir target w
        = (Ret (Some corpus_dir), World _ fs2 ext',
           [Makedirs corpus_dir (Ret tt); Urlopen link (Ret body);
            Extractall body corpus_dir (Ret tt)]))
  /\ (forall ext',
        urlopen_read link (w_ext w) = (Raise HTTPError, ext') ->
        download_latest_corpus project_name out_dir target w
        = (Ret None, World _ fs1 ext',
           [Makedirs corpus_dir (Ret tt); Urlopen link (Raise HTTPError)]))
  /\ fetched (download_latest_corpus project_name out_dir target w).2
     = take 1 (candidate_links project_name target today).
Proof.
  intros Hk Ht corpus_dir Hm today link.
  split; [reflexivity|]. split; [reflexivity|].
  rewrite (download_latest_corpus_run _ _ _ _ Hk Ht).
  fold corpus_dir. rewrite Hm, probe_day_run. cbn [w_ext w_fs].
  fold today. fold link.
  split; [|split].
  - intros body ext' fs2 Hu He. rewrite Hu, He. reflexivity.
  - intros ext' Hu. rewrite Hu. reflexivity.
  - change (take 1 (candidate_links project_name target today)) with [link].
    destruct (urlopen_read link (w_ext w)) as [[body|e] ext'].
    + destruct (extractall body corpus_dir fs1) as [[u|e] fs2]; [reflexivity|].
      destruct (decide (e = HTTPError)); reflexivity.
    + destruct (decide (e = HTTPError)); reflexivity.
Qed.

(** ** C10 *)

(** C10: in a call of [download_latest_corpus] for a known project and
    an existing output directory, [os.makedirs] on
    [out_dir/corpus/target] is the first call made, before any fetch, and
    no fetch is made when it fails.  When it succeeds and the fetch ends
    in [HTTPError], the call returns [None] and the directory is there
    afterwards; a file system that did not have it has changed. *)
Theorem download_latest_corpus_leaves_directory `{Env}
    (project_name out_dir target : pystr) (w : world) :
  check_project_exists project_name (w_fs w) (w_ext w) = true ->
  os_path_exists out_dir (w_fs w) = true ->
  let corpus_dir := Path.join out_dir [py "corpus"; target] in
  let link :=
    http_link project_name target (strftime_ymd (now (w_ext w) - 90)) in
  let '(r, w', t) := download_latest_corpus project_name out_dir target w in
  (exists t',
     t = Makedirs corpus_dir (os_makedirs corpus_dir (w_fs w)).1 :: t' /\
     (is_raise (os_makedirs corpus_dir (w_fs w)).1 = true -> t' = []))
  /\ (forall ext',
        (os_makedirs corpus_dir (w_fs w)).1 = Ret tt ->
        urlopen_read link (w_ext w) = (Raise HTTPError, ext') ->
        r = Ret None
        /\ t = [Makedirs corpus_dir (Ret tt); Urlopen link (Raise HTTPError)]
        /\ os_path_isdir corpus_dir (w_fs w') = true
        /\ w_fs w' = (os_makedirs corpus_dir (w_fs w)).2
        /\ (os_path_exists corpus_dir (w_fs w) = false -> w_fs w' <> w_fs w)).
Proof.
  intros Hk Ht corpus_dir link.
  rewrite (download_latest_corpus_run _ _ _ _ Hk Ht). fold corpus_dir.
  destruct (os_makedirs corpus_dir (w_fs w)) as [[[]|e] fs1] eqn:Hm; cbn [fst snd].
  - rewrite probe_day_run. cbn [w_ext w_fs]. fold link.
    destruct (urlopen_read link (w_ext w)) as [[body|e] ext1] eqn:Hu.
    + destruct (extractall body corpus_dir fs1) as [[u|e] fs2].
      * split; [eexists; split; [reflexivity|easy]|]. intros ext' _ [=].
      * destruct (decide (e = HTTPError));
          (split; [eexists; split; [reflexivity|easy]|]; intros ext' _ [=]).
    + destruct (decide (e = HTTPError)) as [->|Hne].
      * split; [eexists; split; [reflexivity|easy]|].
        intros ext' _ _. cbn [w_fs].
        pose proof (os_makedirs_isdir _ _ _ Hm) as Hd.
        repeat split; try assumption.
        intros Hx ->. unfold os_path_exists in Hx. unfold os_path_isdir in Hd.
        destruct (w_fs w !! corpus_dir) as [n|] eqn:Hl; [|discriminate].
        rewrite bool_decide_eq_false in Hx. apply Hx. eauto.
      * split; [eexists; split; [reflexivity|easy]|].
        intros ext' _ [= ->]. congruence.
  - split; [eexists; split; [reflexivity|reflexivity]|].
    intros ext' [=].
Qed.

(** ** One target of [run_fuzzers] *)

Lemma existsb_failed_app (t1 t2 : list call) :
  existsb failed (t1 ++ t2) = existsb failed t1 || existsb failed t2.
Proof. apply existsb_app. Qed.

(** The corpus download runs no target and writes no report, and an
    exception that leaves it comes from one of its calls. *)
Lemma download_latest_corpus_quiet `{Env} (project_name out_dir target : pystr)
    (w w' : world) (r : outcome (option pystr)) (t : list call) :
  download_latest_corpus project_name out_dir target w = (r, w', t) ->
  fuzz_log t = [] /\ reports t = [] /\
  existsb failed t = is_raise r.
Proof.
  destruct (check_project_exists project_name (w_fs w) (w_ext w)) eqn:Hk.
  2:{ unfold download_latest_corpus. rewrite bind_run.
      unfold project_exists at 1. rewrite Hk. cbn. intros [= <- <- <-]. easy. }
  destruct (os_path_exists out_dir (w_fs w)) eqn:Ht.
  2:{ unfold download_latest_corpus. rewrite bind_run.
      unfold project_exists at 1. rewrite Hk. cbn [negb].
      rewrite bind_run. unfold exists_ at 1. rewrite Ht. cbn.
      intros [= <- <- <-]. easy. }
  rewrite (download_latest_corpus_run _ _ _ _ Hk Ht).
  destruct (os_makedirs _ (w_fs w)) as [[[]|e] fs1].
  2:{ intros [= <- <- <-]. easy. }
  rewrite probe_day_run. cbn [w_ext w_fs].
  destruct (urlopen_read _ (w_ext w)) as [[body|e] ext1].
  - destruct (extractall body _ fs1) as [[u|e] fs2].
    + intros [= <- <- <-]. easy.
    + destruct (decide (e = HTTPError)) as [He|He]; intros [= <- <- <-];
        cbn [fuzz_log reports existsb failed uncaught is_raise orb];
        [rewrite (bool_decide_eq_true_2 _ He)
        |rewrite (bool_decide_eq_false_2 _ He)]; easy.
  - destruct (decide (e = HTTPError)) as [He|He]; intros [= <- <- <-];
      cbn [fuzz_log reports existsb failed uncaught is_raise orb];
      [rewrite (bool_decide_eq_true_2 _ He)
      |rewrite (bool_decide_eq_false_2 _ He)]; easy.
Qed.

Ltac log_done :=
  rewrite ?fuzz_log_app, ?reports_app, ?existsb_failed_app;
  repeat match goal with
         | H : fuzz_log _ = _ |- _ => rewrite H
         | H : reports _ = _ |- _ => rewrite H
         | H : existsb failed _ = _ |- _ => rewrite H
         end;
  cbn [fuzz_log reports app length existsb failed is_raise];
  unfold crashed, truthy_opt, clean;
  repeat match goal with
         | H : truthy_str _ = _ |- _ => rewrite H
         end;
  cbn [andb orb]; rewrite ?orb_true_r, ?andb_false_r; eauto 10.

(** How one pass of the loop body ends: the target ran clean; or it
    crashed, and the pass returns [(True, True)] unless moving the test
    case or writing the report raised; or the corpus download raised
    before the target was run.  An exception leaves the pass exactly when
    a call ended in one that the program does not handle. *)
Lemma run_one_cases `{Env} (project_name : option pystr)
    (out_dir artifacts_dir : pystr) (secs : Z) (p : pystr)
    (w w' : world) (r : outcome (ctl (bool * bool))) (t : list call) :
  run_one project_name out_dir artifacts_dir secs p w = (r, w', t) ->
  existsb failed t = is_raise r /\
  ((r = Ret Next /\ fuzz_log t = [clean secs p] /\ reports t = [])
   \/ (fuzz_log t = [(p, secs, true)] /\ (length (reports t) <= 1)%nat /\
       (r = Ret (Return (true, true)) \/ exists e, r = Raise e))
   \/ (fuzz_log t = [] /\ reports t = [] /\
       project_name <> None /\ exists e, r = Raise e)).
Proof.
  unfold run_one. rewrite bind_run.
  match goal with |- context [match ?m w with _ => _ end] =>
    destruct (m w) as [[[corpus_dir|e] w1] t1] eqn:Hc end.
  2:{ intros [= <- <- <-].
      destruct project_name as [name|]; [|discriminate].
      destruct (truthy_str name); [|discriminate].
      apply download_latest_corpus_quiet in Hc as (Hf & Hr & Hx).
      split; [assumption|]. right. right. repeat split; eauto. }
  assert (fuzz_log t1 = [] /\ reports t1 = [] /\ existsb failed t1 = false)
    as (Hf1 & Hr1 & Hx1).
  { destruct project_name as [name|]; [|now injection Hc as <- <- <-].
    destruct (truthy_str name); [|now injection Hc as <- <- <-].
    apply download_latest_corpus_quiet in Hc. easy. }
  rewrite bind_run. unfold run_target at 1.
  destruct (fuzz p secs out_dir corpus_dir (w_fs w1) (w_ext w1))
    as [[[tc st] fs2] ext2].
  cbn [fst snd].
  destruct tc as [test_case|], st as [stack_trace|];
    try (intros [= <- <- <-]; split; [log_done|left; log_done]).
  destruct (truthy_str test_case) eqn:Htc, (truthy_str stack_trace) eqn:Hst;
    cbn [negb orb];
    try (intros [= <- <- <-]; split; [log_done|left; log_done]).
  rewrite bind_run. unfold move at 1. cbn [w_fs w_ext].
  destruct (shutil_move test_case _ fs2) as [[u|e] fs3].
  2:{ intros [= <- <- <-]. split; [log_done|right; left; log_done]. }
  rewrite bind_run, parse_fuzzer_output_extracted.
  destruct (extracted stack_trace) as [s|].
  - unfold append_file at 1. cbn [w_fs w_ext].
    destruct (open_append _ s fs3) as [[u'|e] fs4]; intros [= <- <- <-];
      (split; [log_done|right; left; log_done]).
  - intros [= <- <- <-]. split; [log_done|right; left; log_done].
Qed.

(** ** The loop of [run_fuzzers] *)

(** How the loop ends: every target ran clean; or the targets before
    index [k] ran clean and the one at [k] crashed; or they ran clean and
    the corpus download for the one at [k] raised. *)
Lemma fuzz_loop_cases `{Env} (project_name : option pystr)
    (out_dir artifacts_dir : pystr) (secs : Z) (paths : list pystr) :
  forall (w w' : world) (r : outcome (option (bool * bool))) (t : list call),
  for_in paths (run_one project_name out_dir artifacts_dir secs) w
  = (r, w', t) ->
  existsb failed t = is_raise r /\
  ((r = Ret None /\ fuzz_log t = clean secs <$> paths /\ reports t = [])
   \/ (exists k p,
         paths !! k = Some p /\
         fuzz_log t = (clean secs <$> take k paths) ++ [(p, secs, true)] /\
         (length (reports t) <= 1)%nat /\
         (r = Ret (Some (true, true)) \/ exists e, r = Raise e))
   \/ (exists k e,
         (k < length paths)%nat /\
         fuzz_log t = clean secs <$> take k paths /\
         reports t = [] /\ project_name <> None /\ r = Raise e)).
Proof.
  induction paths as [|p paths IH]; intros w w' r t.
  - intros [= <- <- <-]. split; [reflexivity|now left].
  - cbn [for_in]. rewrite bind_run.
    destruct (run_one project_name out_dir artifacts_dir secs p w)
      as [[[c|e] w1] t1] eqn:H1;
      apply run_one_cases in H1
        as (Hx & [(Hr & Hf & Hp)|[(Hf & Hp & Hr)|(Hf & Hp & Hn & e' & Hr)]]);
      try discriminate.
    + (* the target ran clean *)
      injection Hr as ->.
      destruct (for_in paths _ w1) as [[r2 w2] t2] eqn:H2.
      intros [= <- <- <-].
      apply IH in H2
        as (Hx2 & [(-> & Hf2 & Hp2)
                  |[(k & q & Hk & Hf2 & Hp2 & Hr2)
                   |(k & e & Hk & Hf2 & Hp2 & Hn & ->)]]);
        (split; [now rewrite existsb_failed_app, Hx, Hx2|]).
      * left. rewrite fuzz_log_app, reports_app, Hf, Hf2, Hp, Hp2. easy.
      * right. left. exists (S k), q.
        rewrite fuzz_log_app, reports_app, Hf, Hf2, Hp. easy.
      * right. right. exists (S k), e.
        rewrite fuzz_log_app, reports_app, Hf, Hf2, Hp, Hp2.
        cbn [length]. repeat split; try easy; lia.
    + (* the target crashed and the pass returned *)
      destruct Hr as [[= ->]|(e & [=])].
      intros [= <- <- <-]. split; [now rewrite app_nil_r|].
      right. left. exists 0%nat, p.
      rewrite app_nil_r. repeat split; try easy; now left.
    + (* the target crashed and handling the crash raised *)
      intros [= <- <- <-]. split; [assumption|].
      right. left. exists 0%nat, p.
      repeat split; try easy. right. eauto.
    + (* the corpus download raised *)
      intros [= <- <- <-]. split; [assumption|].
      right. right. exists 0%nat, e.
      cbn [length]. repeat split; try easy. lia.
Qed.

(** [run_fuzzers] once its checks have passed. *)
Lemma run_fuzzers_run `{Env} (fuzz_seconds : Z) (workspace : pystr)
    (project_name : option pystr) (w : world) (fs1 : filesys) :
  os_path_exists workspace (w_fs w) = true ->
  let out_dir := Path.join workspace [py "out"] in
  let artifacts_dir := Path.join out_dir [py "artifacts"] in
  os_makedirs artifacts_dir (w_fs w) = (Ret tt, fs1) ->
  1 <= fuzz_seconds ->
  let fuzzer_paths := get_fuzz_targets out_dir fs1 (w_ext w) in
  fuzzer_paths <> [] ->
  run_fuzzers fuzz_seconds workspace project_name w
  = match for_in fuzzer_paths
            (run_one project_name out_dir artifacts_dir
                     (fuzz_seconds / len fuzzer_paths))
            (World _ fs1 (w_ext w)) with
    | (r, w2, t2) =>
        (match r with
         | Ret (Some v) => Ret v
         | Ret None => Ret (true, false)
         | Raise e => Raise e
         end,
         w2,
         Makedirs artifacts_dir (Ret tt) :: Discover out_dir fuzzer_paths :: t2)
    end.
Proof.
  intros Hw out_dir artifacts_dir Hm Hs fuzzer_paths Hne.
  unfold run_fuzzers. rewrite bind_run. unfold exists_ at 1. rewrite Hw.
  cbn [negb]. rewrite bind_run. unfold makedirs at 1.
  fold out_dir. fold artifacts_dir. rewrite Hm.
  assert (negb (truthy_int fuzz_seconds) || (fuzz_seconds <? 1) = false) as ->.
  { unfold truthy_int. destruct (Z.eqb_spec fuzz_seconds 0); [lia|].
    destruct (Z.ltb_spec fuzz_seconds 1); [lia|reflexivity]. }
  rewrite bind_run. unfold discover at 1. cbn [w_fs w_ext].
  fold fuzzer_paths.
  assert (truthy_list fuzzer_paths = true) as ->
    by now destruct fuzzer_paths.
  cbn [negb]. rewrite bind_run.
  destruct (for_in fuzzer_paths _ _) as [[[[v|]|e] w2] t2];
    unfold ret; cbn [app]; now rewrite ?app_nil_r.
Qed.

(** ** C1 *)


(** ** C6 *)

Lemma allotted_clean (secs : Z) (paths : list pystr) :
  foldr (fun entry acc => entry.1.2 + acc) 0 (clean secs <$> paths)
  = len paths * secs.
Proof.
  unfold len. induction paths as [|p paths IH]; [reflexivity|].
  cbn [fmap list_fmap foldr length]. change (list_fmap _ _ (clean secs) paths)
    with (clean secs <$> paths).
  rewrite IH. cbn [clean fst snd]. lia.
Qed.

(** C6: in a run of [run_fuzzers] with [fuzz_seconds >= 1] that has found
    [n >= 1] targets, every target executed is given exactly
    [fuzz_seconds // n] seconds, and every target is executed with that
    allotment when none crashes.  The targets are executed with it in
    the order found: all of them, and the run returns [(True, False)];
    or up to and with the first one that crashes; or up to the one whose
    corpus download raised.  [n] such allotments never exceed
    [fuzz_seconds], and what is left over is between [0] and [n - 1]
    seconds; the seconds handed out in the run never exceed
    [fuzz_seconds]. *)
Theorem run_fuzzers_budget `{Env} (fuzz_seconds : Z)
    (workspace : pystr) (project_name : option pystr) (w : world)
    (fs1 : filesys) :
  os_path_exists workspace (w_fs w) = true ->
  let out_dir := Path.join workspace [py "out"] in
  let artifacts_dir := Path.join out_dir [py "artifacts"] in
  os_makedirs artifacts_dir (w_fs w) = (Ret tt, fs1) ->
  1 <= fuzz_seconds ->
  let fuzzer_paths := get_fuzz_targets out_dir fs1 (w_ext w) in
  fuzzer_paths <> [] ->
  let n := len fuzzer_paths in
  let '(res, w', t) := run_fuzzers fuzz_seconds workspace project_name w in
  Forall (fun entry => entry.1.2 = fuzz_seconds / n) (fuzz_log t)
  /\ (exists k, (k <= length fuzzer_paths)%nat /\
                (fuzz_log t).*1.*1 = take k fuzzer_paths)
  /\ (res = Ret (true, false) ->
      (fuzz_log t).*1 = (fun p => (p, fuzz_seconds / n)) <$> fuzzer_paths)
  /\ ((res = Ret (true, false) /\
       fuzz_log t = clean (fuzz_seconds / n) <$> fuzzer_paths)
      \/ (exists k p,
            fuzzer_paths !! k = Some p /\
            fuzz_log t
            = (clean (fuzz_seconds / n) <$> take k fuzzer_paths)
              ++ [(p, fuzz_seconds / n, true)] /\
            (res = Ret (true, true) \/ exists e, res = Raise e))
      \/ (exists k e,
            (k < length fuzzer_paths)%nat /\
            fuzz_log t = clean (fuzz_seconds / n) <$> take k fuzzer_paths /\
            project_name <> None /\ res = Raise e))
  /\ n * (fuzz_seconds / n) <= fuzz_seconds
  /\ 0 <= fuzz_seconds - n * (fuzz_seconds / n) <= n - 1
  /\ allotted t <= fuzz_seconds.
Proof.
  intros Hw out_dir artifacts_dir Hm Hs fuzzer_paths Hne n.
  assert (1 <= n) as Hn.
  { unfold n, len. destruct fuzzer_paths; [congruence|]. cbn [length]. lia. }
  assert (n * (fuzz_seconds / n) <= fuzz_seconds) as Hle
    by (apply Z.mul_div_le; lia).
  assert (0 <= fuzz_seconds / n) as Hq by (apply Z.div_pos; lia).
  assert (fuzz_seconds - n * (fuzz_seconds / n) <= n - 1) as Hrem.
  { pose proof (Z.div_mod fuzz_seconds n ltac:(lia)).
    pose proof (Z.mod_pos_bound fuzz_seconds n ltac:(lia)). lia. }
  rewrite (run_fuzzers_run _ _ _ _ _ Hw Hm Hs Hne).
  fold out_dir artifacts_dir fuzzer_paths n.
  destruct (for_in fuzzer_paths _ _) as [[r w2] t2] eqn:Hl.
  unfold allotted. cbn [fuzz_log].
  assert (forall k : nat, len (take k fuzzer_paths) <= n) as Htake.
  { intros k. unfold n, len. rewrite length_take. lia. }
  apply fuzz_loop_cases in Hl
    as (_ & [(-> & Hf & Hp)
            |[(k & p & Hk & Hf & Hp & Hr)|(k & e & Hk & Hf & Hp & Hx & ->)]]);
    rewrite Hf.
  - split; [apply Forall_fmap, Forall_true; now intros|].
    split.
    { exists (length fuzzer_paths). split; [lia|].
      rewrite firstn_all, <- !list_fmap_compose. apply list_fmap_id. }
    split; [intros _; now rewrite <- list_fmap_compose|].
    split; [now left|].
    rewrite allotted_clean. fold n. lia.
  - pose proof (lookup_lt_Some _ _ _ Hk) as Hlt.
    split.
    { apply Forall_app. split; [|now repeat constructor].
      apply Forall_fmap, Forall_true. now intros. }
    split.
    { exists (S k). split; [lia|].
      rewrite !fmap_app, <- !list_fmap_compose. cbn [fmap list_fmap fst].
      rewrite (take_S_r _ _ _ Hk). f_equal. apply list_fmap_id. }
    split.
    { intros Hres. destruct Hr as [->|(e & ->)]; discriminate Hres. }
    split.
    { right. left. exists k, p. split; [assumption|]. split; [reflexivity|].
      destruct Hr as [->|(e & ->)]; [now left|right; now exists e]. }
    rewrite foldr_app. cbn [foldr fst snd].
    assert (forall l a,
      foldr (fun entry acc => entry.1.2 + acc) a (clean (fuzz_seconds / n) <$> l)
      = len l * (fuzz_seconds / n) + a) as Hsum.
    { intros l a. unfold len. induction l as [|x l IHl]; [cbn; lia|].
      cbn [fmap list_fmap foldr length clean fst snd] in *.
      rewrite IHl. lia. }
    rewrite Hsum.
    assert (len (take k fuzzer_paths) + 1 <= n).
    { unfold n, len. rewrite length_take. lia. }
    nia.
  - split; [apply Forall_fmap, Forall_true; now intros|].
    split.
    { exists k. split; [lia|].
      rewrite <- !list_fmap_compose. apply list_fmap_id. }
    split; [discriminate|].
    split; [right; right; exists k, e; easy|].
    rewrite allotted_clean. specialize (Htake k). nia.
Qed.

(** ** The theorems at the scripted environment *)

(** Three targets, thirty seconds, the second target crashes: [a] and
    [b] get ten seconds each, [c] is not run, the test case is moved and
    the summary written. *)
Example scenario_abc :
  let '(res, w', t) :=
    @run_fuzzers (scripted abc) 30 (py "/w") None abc_world in
  res = Ret (true, true)
  /\ fuzz_log t = [(py "/w/out/a", 10, false); (py "/w/out/b", 10, true)]
  /\ read_file (py "/w/out/artifacts/test_case") (w_fs w')
     = Some (py "crashing input")
  /\ read_file (py "/w/out/artifacts/bug_summary.txt") (w_fs w')
     = Some asan_summary
  /\ reports t = [asan_summary].
Proof. vm_compute. repeat split. Qed.

(** The archive is there: it is fetched from the link of the first
    candidate date and unpacked under [/w/corpus/a]. *)
Example scenario_abc_download :
  let '(res, w', t) :=
    @download_latest_corpus (scripted abc_online) (py "zlib") (py "/w")
      (py "a") abc_online_world in
  res = Ret (Some (py "/w/corpus/a"))
  /\ os_path_isdir (py "/w/corpus") (w_fs w') = true
  /\ os_path_isdir (py "/w/corpus/a") (w_fs w') = true
  /\ read_file (py "/w/corpus/a/seed") (w_fs w') = Some (py "PK")
  /\ t = [Makedirs (py "/w/corpus/a") (Ret tt);
          Urlopen zlib_a_link (Ret (py "PK"));
          Extractall (py "PK") (py "/w/corpus/a") (Ret tt)].
Proof. vm_compute. repeat split. Qed.

Lemma outcome_unit_ret {S} (x : outcome unit * S) : x.1 = Ret tt -> x = (Ret tt, x.2).
Proof. destruct x as [[[]|e] s]; cbn; congruence. Defined.

Lemma makedirs_artifacts_abc :
  os_makedirs (Path.join (Path.join (py "/w") [py "out"]) [py "artifacts"])
    (w_fs abc_world)
  = (Ret tt, (os_makedirs (py "/w/out/artifacts") (w_fs abc_world)).2).
Proof.
  change (Path.join (Path.join (py "/w") [py "out"]) [py "artifacts"])
    with (py "/w/out/artifacts").
  apply outcome_unit_ret. vm_compute. reflexivity.
Defined.

Lemma makedirs_corpus_abc :
  os_makedirs (Path.join (py "/w") [py "corpus"; py "a"]) (w_fs abc_world)
  = (Ret tt, (os_makedirs (py "/w/corpus/a") (w_fs abc_world)).2).
Proof.
  change (Path.join (py "/w") [py "corpus"; py "a"]) with (py "/w/corpus/a").
  apply outcome_unit_ret. vm_compute. reflexivity.
Defined.


Lemma run_fuzzers_budget_witness :
  os_path_exists (py "/w") (w_fs abc_world) = true
  /\ (os_makedirs (py "/w/out/artifacts") (w_fs abc_world)).1 = Ret tt
  /\ 1 <= 31
  /\ s_targets abc <> []
  /\ allotted (@run_fuzzers (scripted abc) 31 (py "/w") None abc_world).2 <= 31.
Proof.
  pose proof (@run_fuzzers_budget (scripted abc) 31 (py "/w")
                None abc_world
                (os_makedirs (py "/w/out/artifacts") (w_fs abc_world)).2
                ltac:(vm_compute; reflexivity)
                makedirs_artifacts_abc
                ltac:(lia)
                ltac:(discriminate)) as Hthm.
  split; [vm_compute; reflexivity|].
  split; [vm_compute; reflexivity|].
  split; [lia|]. split; [discriminate|].
  destruct (@run_fuzzers (scripted abc) 31 (py "/w") None abc_world)
    as [[res w'] t].
  exact (proj2 (proj2 (proj2 (proj2 (proj2 (proj2 Hthm)))))).
Defined.

Lemma download_latest_corpus_first_candidate_only_witness :
  @check_project_exists (scripted abc) (py "zlib") (w_fs abc_world) tt = true
  /\ os_path_exists (py "/w") (w_fs abc_world) = true
  /\ (os_makedirs (py "/w/corpus/a") (w_fs abc_world)).1 = Ret tt
  /\ fetched (@download_latest_corpus (scripted abc) (py "zlib") (py "/w")
                (py "a") abc_world).2
     = take 1 (@candidate_links (scripted abc) (py "zlib") (py "a") 737425).
Proof.
  pose proof (@download_latest_corpus_first_candidate_only (scripted abc)
                (py "zlib") (py "/w") (py "a") abc_world
                (os_makedirs (py "/w/corpus/a") (w_fs abc_world)).2
                ltac:(vm_compute; reflexivity)
                ltac:(vm_compute; reflexivity)
                makedirs_corpus_abc) as Hthm.
  split; [vm_compute; reflexivity|].
  split; [vm_compute; reflexivity|].
  split; [vm_compute; reflexivity|].
  exact (proj2 (proj2 (proj2 (proj2 Hthm)))).
Defined.

Lemma download_latest_corpus_leaves_directory_witness :
  @check_project_exists (scripted abc) (py "zlib") (w_fs abc_world) tt = true
  /\ os_path_exists (py "/w") (w_fs abc_world) = true
  /\ os_path_isdir (py "/w/corpus/a")
       (w_fs (@download_latest_corpus (scripted abc) (py "zlib") (py "/w")
                (py "a") abc_world).1.2) = true.
Proof.
  pose proof (@download_latest_corpus_leaves_directory (scripted abc)
                (py "zlib") (py "/w") (py "a") abc_world
                ltac:(vm_compute; reflexivity)
                ltac:(vm_compute; reflexivity)) as Hthm.
  split; [vm_compute; reflexivity|].
  split; [vm_compute; reflexivity|].
  cbn zeta in Hthm.
  destruct (@download_latest_corpus (scripted abc) (py "zlib") (py "/w")
              (py "a") abc_world) as [[r w'] t].
  destruct Hthm as [_ Hthm].
  exact (proj1 (proj2 (proj2
           (Hthm tt ltac:(vm_compute; reflexivity)
                    ltac:(vm_compute; reflexivity))))).
Defined.

Lemma parse_fuzzer_output_twice_appends_witness :
  extracted asan_trace = Some asan_summary
  /\ utf8_encodable asan_summary = true
  /\ can_append (Path.join (py "/w") [SUMMARY_FILE]) (w_fs abc_world) = true
  /\ read_file (py "/w/bug_summary.txt")
       (w_fs (@parse_fuzzer_output (scripted abc) asan_trace (py "/w")
                (@parse_fuzzer_output (scripted abc) asan_trace (py "/w")
                   abc_world).1.2).1.2)
     = Some (asan_summary ++ asan_summary).
Proof.
  pose proof (@parse_fuzzer_output_twice_appends (scripted abc)
                asan_trace asan_trace (py "/w") asan_summary asan_summary
                abc_world
                ltac:(vm_compute; reflexivity)
                ltac:(vm_compute; reflexivity)
                ltac:(vm_compute; reflexivity)
                ltac:(vm_compute; reflexivity)
                ltac:(vm_compute; reflexivity)) as Hthm.
  split; [vm_compute; reflexivity|].
  split; [vm_compute; reflexivity|].
  split; [vm_compute; reflexivity|].
  cbn zeta in Hthm.
  destruct (@parse_fuzzer_output (scripted abc) asan_trace (py "/w") abc_world)
    as [[r1 w1] t1].
  cbn [fst snd].
  destruct (@parse_fuzzer_output (scripted abc) asan_trace (py "/w") w1)
    as [[r2 w2] t2].
  exact (proj1 (proj2 (proj2 (proj2 (proj2 (proj2 Hthm)))))).
Defined.

Lemma parse_fuzzer_output_never_unbound_witness :
  Str.contains asan_trace (py "ASAN:") = false
  /\ truthy_int (Str.find asan_trace (py "ASAN:")) = true.
Proof.
  split; [vm_compute; reflexivity|].
  exact (proj1 (@parse_fuzzer_output_never_unbound (scripted abc) asan_trace
                  (py "/w") abc_world)
               (py "ASAN:") ltac:(vm_compute; reflexivity)).
Defined.

(** * Further properties *)

(** ** [str.find] and slicing *)

Lemma startswith_app (sub s : pystr) :
  Str.startswith s sub = true <-> exists rest, s = sub ++ rest.
Proof.
  revert s. induction sub as [|c sub IH]; intros s; cbn [Str.startswith].
  - split; [eauto|]. intros _. now destruct s.
  - destruct s as [|d s]; cbn [Str.startswith].
    + split; [discriminate|]. intros [rest [=]].
    + rewrite andb_true_iff, N.eqb_eq, IH. split.
      * intros [-> [rest ->]]. eauto.
      * intros [rest [= -> ->]]. eauto.
Qed.

Lemma find_from_spec (sub s : pystr) (i : Z) :
  0 <= i ->
  (Str.find_from i s sub = -1 /\
   forall j, (j <= length s)%nat -> Str.startswith (drop j s) sub = false)
  \/ (exists k : nat,
        Str.find_from i s sub = i + Z.of_nat k /\ (k <= length s)%nat /\
        Str.startswith (drop k s) sub = true /\
        forall j, (j < k)%nat -> Str.startswith (drop j s) sub = false).
Proof.
  revert i. induction s as [|c s IH]; intros i Hi; cbn [Str.find_from].
  - destruct (Str.startswith [] sub) eqn:H0.
    + right. exists 0%nat. cbn [drop length]. repeat split; try lia; easy.
    + left. split; [reflexivity|]. intros j Hj. now rewrite drop_nil.
  - destruct (Str.startswith (c :: s) sub) eqn:H0.
    + right. exists 0%nat. cbn [drop length]. repeat split; try lia; easy.
    + destruct (IH (i + 1) ltac:(lia)) as [[Hf Hn]|(k & Hf & Hk & Hs & Hn)].
      * left. split; [assumption|]. intros [|j] Hj; [assumption|].
        cbn [drop]. apply Hn. cbn [length] in Hj. lia.
      * right. exists (S k). cbn [drop length].
        repeat split; try lia; try assumption.
        intros [|j] Hj; [assumption|]. cbn [drop]. apply Hn. lia.
Qed.

(** X1: [s.find(sub)] is [-1] exactly when [sub] occurs nowhere in [s];
    otherwise it is the index of an occurrence of [sub] in [s], and no
    occurrence starts before it. *)
Theorem find_lowest_occurrence (s sub : pystr) :
  (Str.find s sub = -1 /\
   forall pre post, s <> pre ++ sub ++ post)
  \/ (exists pre post,
        s = pre ++ sub ++ post /\ Str.find s sub = len pre /\
        forall pre' post', s = pre' ++ sub ++ post' ->
                           (length pre <= length pre')%nat).
Proof.
  unfold Str.find.
  destruct (find_from_spec sub s 0 ltac:(lia))
    as [[Hf Hn]|(k & Hf & Hk & Hs & Hn)].
  - left. split; [assumption|]. intros pre post ->.
    specialize (Hn (length pre)). rewrite drop_app_length in Hn.
    rewrite length_app in Hn.
    assert (Str.startswith (sub ++ post) sub = true) as Ht
      by (apply startswith_app; eauto).
    rewrite Hn in Ht by lia. discriminate.
  - right. apply startswith_app in Hs as [post Hpost].
    exists (take k s), post.
    assert (length (take k s) = k) as Hlen by (rewrite length_take; lia).
    split; [now rewrite <- Hpost, take_drop|].
    split; [unfold len; rewrite Hlen; lia|].
    intros pre' post' Heq. rewrite Hlen.
    destruct (Nat.le_gt_cases k (length pre')) as [|Hlt]; [assumption|].
    specialize (Hn _ Hlt). rewrite Heq, drop_app_length in Hn.
    assert (Str.startswith (sub ++ post') sub = true) as Ht
      by (apply startswith_app; eauto).
    congruence.
Qed.

Lemma adjust_index_range (i n : Z) : 0 <= n -> 0 <= adjust_index i n <= n.
Proof. unfold adjust_index. destruct (Z.ltb_spec i 0); lia. Qed.

Lemma slice_bounds (b e : pyval) (n : Z) :
  0 <= n -> 0 <= slice_start b n <= n /\ 0 <= slice_stop e n <= n.
Proof.
  intros Hn. destruct b, e; cbn [slice_start slice_stop];
    repeat match goal with
           | |- context [adjust_index ?i n] =>
               pose proof (adjust_index_range i n Hn);
               generalize dependent (adjust_index i n); intros
           end; lia.
Qed.

(** X2: a slice [s[b:e]] never faults, whatever the bounds: it is the part
    of [s] between the two adjusted bounds, so [s] is some prefix, then
    the slice, then some suffix, and the slice is no longer than [s]. *)
Theorem py_slice_substring (s : pystr) (b e : pyval) :
  exists pre post,
    s = pre ++ py_slice s b e ++ post /\
    (py_slice s b e <> [] ->
     len pre = slice_start b (len s) /\
     len (pre ++ py_slice s b e) = slice_stop e (len s)).
Proof.
  unfold py_slice.
  destruct (slice_bounds b e (len s) ltac:(unfold len; lia)) as [Hb He].
  set (start := slice_start b (len s)) in *.
  set (stop := slice_stop e (len s)) in *.
  destruct (Z.ltb_spec start stop) as [Hlt|Hge].
  - exists (take (Z.to_nat start) s), (drop (Z.to_nat stop) s).
    assert (drop (Z.to_nat start) s
            = take (Z.to_nat (stop - start)) (drop (Z.to_nat start) s)
              ++ drop (Z.to_nat stop) s) as Hd.
    { rewrite <- (take_drop (Z.to_nat (stop - start)) (drop (Z.to_nat start) s))
        at 1.
      rewrite drop_drop. do 2 f_equal. lia. }
    split.
    + rewrite <- Hd. now rewrite take_drop.
    + intros _. unfold len in *.
      rewrite length_app, !length_take, length_drop. lia.
  - exists s, []. rewrite !app_nil_r. split; [reflexivity|easy].
Qed.

(** ** What [parse_fuzzer_output] can write *)

(** X3: whatever [parse_fuzzer_output] hands to the summary file is a
    non-empty run of consecutive characters of the fuzzer output. *)
Theorem extracted_is_substring (fuzzer_output s : pystr) :
  extracted fuzzer_output = Some s ->
  s <> [] /\ exists pre post, fuzzer_output = pre ++ s ++ post.
Proof.
  unfold extracted.
  destruct (begin_loop fuzzer_output _) as [b|]; [|discriminate].
  destruct (bounds_guard _ _); [discriminate|].
  destruct (py_slice_substring fuzzer_output b
              (end_loop fuzzer_output STACKTRACE_END_MARKERS (PyInt (-1))))
    as (pre & post & Hs & _).
  destruct (py_slice fuzzer_output b _) as [|c s'] eqn:Hsl;
    cbn [truthy_str]; [discriminate|].
  intros [= <-]. split; [discriminate|]. eauto.
Qed.

Lemma extracted_is_substring_witness :
  extracted asan_trace = Some asan_summary
  /\ exists pre post, asan_trace = pre ++ asan_summary ++ post.
Proof.
  split; [vm_compute; reflexivity|].
  exact (proj2 (extracted_is_substring asan_trace asan_summary
                  ltac:(vm_compute; reflexivity))).
Defined.

Lemma slice_from_last (s : pystr) (e : pyval) :
  py_slice s (PyInt (-1)) e = [] \/
  exists c, py_slice s (PyInt (-1)) e = [c] /\ last s = Some c.
Proof.
  unfold py_slice.
  destruct (slice_bounds (PyInt (-1)) e (len s) ltac:(unfold len; lia))
    as [_ He].
  set (stop := slice_stop e (len s)) in *.
  cbn [slice_start]. unfold adjust_index. cbn [Z.ltb Z.compare].
  destruct (Z.ltb_spec (Z.max (-1 + len s) 0) stop) as [Hlt|]; [|now left].
  right.
  induction s as [|c0 s0 _] using rev_ind; [unfold len in *; cbn in *; lia|].
  exists c0. rewrite last_snoc. split; [|reflexivity].
  unfold len in *. rewrite length_app in *. cbn [length] in *.
  replace (Z.to_nat (Z.max (-1 + Z.of_nat (length s0 + 1)) 0))
    with (length s0) by lia.
  rewrite drop_app_length.
  replace (Z.to_nat (stop - Z.max (-1 + Z.of_nat (length s0 + 1)) 0))
    with 1%nat by lia.
  reflexivity.
Qed.

(** X4: on an output in which ["AddressSanitizer"] does not occur, the
    start index is the [-1] that [find] gives, whatever other markers the
    output holds; so [parse_fuzzer_output] writes either nothing or the
    last character of the output, and nothing else. *)
Theorem extracted_without_first_marker (fuzzer_output s : pystr) :
  Str.contains fuzzer_output (py "AddressSanitizer") = false ->
  begin_loop fuzzer_output STACKTRACE_TOOL_MARKERS = Some (PyInt (-1))
  /\ (extracted fuzzer_output = Some s ->
      exists c, s = [c] /\ last fuzzer_output = Some c).
Proof.
  intros Hc. apply absent_is_truthy in Hc as [Hf Ht].
  assert (begin_loop fuzzer_output STACKTRACE_TOOL_MARKERS = Some (PyInt (-1)))
    as Hb.
  { destruct (begin_loop_binds fuzzer_output) as [[_ ->]|[H0 _]].
    - now rewrite Hf.
    - apply find_zero_startswith in H0. congruence. }
  split; [assumption|].
  unfold extracted. rewrite Hb.
  destruct (end_loop_binds fuzzer_output (PyInt (-1))) as [[_ ->]|[_ ->]];
    cbn [bounds_guard is_None orb];
    match goal with |- context [py_slice _ _ ?e] =>
      destruct (slice_from_last fuzzer_output e) as [->|(c & -> & Hl)]
    end; cbn [truthy_str]; try discriminate; intros [= <-]; eauto.
Qed.

Lemma extracted_without_first_marker_witness :
  Str.contains (py "==1==ABORTING") (py "AddressSanitizer") = false
  /\ extracted (py "==1==ABORTING") = Some (py "G")
  /\ exists c, py "G" = [c] /\ last (py "==1==ABORTING") = Some c.
Proof.
  split; [vm_compute; reflexivity|].
  split; [vm_compute; reflexivity|].
  exact (proj2 (extracted_without_first_marker (py "==1==ABORTING") (py "G")
                  ltac:(vm_compute; reflexivity))
               ltac:(vm_compute; reflexivity)).
Defined.

Lemma py_slice_inside (pre mid post : pystr) :
  mid <> [] ->
  py_slice (pre ++ mid ++ post) (PyInt (len pre)) (PyInt (len (pre ++ mid)))
  = mid.
Proof.
  intros Hm. unfold py_slice, slice_start, slice_stop, adjust_index, len.
  rewrite !length_app.
  assert (0 < length mid)%nat by (destruct mid; [congruence|cbn; lia]).
  destruct (Z.ltb_spec (Z.of_nat (length pre)) 0); [lia|].
  destruct (Z.ltb_spec (Z.of_nat (length pre + length mid)) 0); [lia|].
  rewrite !Z.min_l by lia.
  destruct (Z.ltb_spec (Z.of_nat (length pre))
              (Z.of_nat (length pre + length mid))); [|lia].
  rewrite Nat2Z.id, drop_app_length.
  replace (Z.to_nat (Z.of_nat (length pre + length mid) - Z.of_nat (length pre)))
    with (length mid) by lia.
  apply take_app_length.
Qed.

(** X5: when ["AddressSanitizer"] occurs in the output, not at its very
    start, and the first ["ABORTING"] does not come before the first
    ["AddressSanitizer"], the summary runs from the first
    ["AddressSanitizer"] through the end of the first ["ABORTING"]. *)
Theorem extracted_asan_report (fuzzer_output : pystr) (i j : Z) :
  Str.find fuzzer_output (py "AddressSanitizer") = i -> 0 < i ->
  Str.find fuzzer_output (py "ABORTING") = j -> i <= j ->
  exists pre mid post,
    fuzzer_output = pre ++ mid ++ py "ABORTING" ++ post
    /\ len pre = i /\ len (pre ++ mid) = j
    /\ Str.startswith (mid ++ py "ABORTING" ++ post) (py "AddressSanitizer")
       = true
    /\ extracted fuzzer_output = Some (mid ++ py "ABORTING").
Proof.
  intros Hi Hpos Hj Hle.
  destruct (find_lowest_occurrence fuzzer_output (py "AddressSanitizer"))
    as [[Hn _]|(pre1 & post1 & H1 & Hf1 & _)]; [lia|].
  destruct (find_lowest_occurrence fuzzer_output (py "ABORTING"))
    as [[Hn _]|(pre2 & post2 & H2 & Hf2 & _)]; [lia|].
  assert (Str.startswith fuzzer_output (py "AddressSanitizer") = false) as Hs1.
  { apply not_true_is_false. intros E.
    apply find_zero_startswith in E. lia. }
  assert (Str.startswith fuzzer_output (py "ABORTING") = false) as Hs2.
  { apply not_true_is_false. intros E.
    apply find_zero_startswith in E. lia. }
  assert (length pre1 <= length pre2)%nat as Hlen by (unfold len in *; lia).
  assert (pre2 = pre1 ++ drop (length pre1) pre2) as Hp2.
  { assert (take (length pre1) fuzzer_output = pre1) as Ht1
      by (rewrite H1; apply take_app_length).
    rewrite H2, take_app_le in Ht1 by lia.
    rewrite <- (take_drop (length pre1) pre2) at 1. now rewrite Ht1. }
  set (mid := drop (length pre1) pre2) in *.
  exists pre1, mid, post2.
  assert (fuzzer_output = pre1 ++ mid ++ py "ABORTING" ++ post2) as Hfo.
  { rewrite H2 at 1. rewrite Hp2 at 1. now rewrite <- app_assoc. }
  split; [assumption|]. split; [lia|].
  split; [rewrite <- Hp2; lia|].
  split.
  { apply startswith_app. exists post1.
    rewrite Hfo in H1. now apply app_inv_head in H1. }
  rewrite (extracted_first_entries _ Hs1 Hs2). cbn zeta.
  replace (Str.find fuzzer_output (py "AddressSanitizer")) with (len pre1)
    by lia.
  replace (Str.find fuzzer_output (py "ABORTING") + 8)
    with (len (pre1 ++ (mid ++ py "ABORTING"))).
  2:{ unfold len in *. rewrite Hf2, Hp2, !length_app.
      change (length (py "ABORTING")) with 8%nat. lia. }
  rewrite Hfo.
  replace (pre1 ++ mid ++ py "ABORTING" ++ post2)
    with (pre1 ++ (mid ++ py "ABORTING") ++ post2)
    by now rewrite <- !app_assoc.
  rewrite py_slice_inside by (destruct mid; discriminate).
  now destruct mid.
Qed.

Lemma extracted_asan_report_witness :
  Str.find asan_trace (py "AddressSanitizer") = 12 /\ 0 < 12
  /\ Str.find asan_trace (py "ABORTING") = 55 /\ 12 <= 55
  /\ exists pre mid post,
       asan_trace = pre ++ mid ++ py "ABORTING" ++ post
       /\ len pre = 12 /\ len (pre ++ mid) = 55
       /\ Str.startswith (mid ++ py "ABORTING" ++ post) (py "AddressSanitizer")
          = true
       /\ extracted asan_trace = Some (mid ++ py "ABORTING").
Proof.
  split; [vm_compute; reflexivity|]. split; [lia|].
  split; [vm_compute; reflexivity|]. split; [lia|].
  exact (extracted_asan_report asan_trace 12 55
           ltac:(vm_compute; reflexivity) ltac:(lia)
           ltac:(vm_compute; reflexivity) ltac:(lia)).
Defined.

(** ** The summary file under [parse_fuzzer_output] *)

(** X6: a call of [parse_fuzzer_output] changes nothing but the summary
    file of its output directory, never the state outside the file
    system, and makes at most one write.  What the file held stays at its
    front, and a call that returns has put the extracted summary after
    it.  A call that raises has written no text: nothing has changed,
    except that a summary file that was not there may have been created
    and left empty. *)
Theorem parse_fuzzer_output_append_only `{Env}
    (fuzzer_output out_dir : pystr) (w : world) :
  let summary_file_path := Path.join out_dir [SUMMARY_FILE] in
  let '(r, w', t) := parse_fuzzer_output fuzzer_output out_dir w in
  w_ext w' = w_ext w
  /\ (forall q, q <> summary_file_path -> w_fs w' !! q = w_fs w !! q)
  /\ (forall before,
        read_file summary_file_path (w_fs w) = Some before ->
        exists s, read_file summary_file_path (w_fs w') = Some (before ++ s))
  /\ (is_raise r = true ->
      w_fs w' = w_fs w \/
      (w_fs w !! summary_file_path = None /\
       w_fs w' = <[summary_file_path := File []]> (w_fs w)))
  /\ (r = Ret tt ->
      match extracted fuzzer_output with
      | Some s =>
          read_file summary_file_path (w_fs w')
          = Some (default [] (read_file summary_file_path (w_fs w)) ++ s)
      | None => w' = w
      end)
  /\ (length t <= 1)%nat
  /\ reports t = match extracted fuzzer_output with
                 | Some s => [s]
                 | None => []
                 end.
Proof.
  cbn zeta. rewrite parse_fuzzer_output_extracted.
  destruct (extracted fuzzer_output) as [s|].
  2:{ cbn. repeat split; try easy; try lia.
      intros before Hb. exists []. now rewrite app_nil_r. }
  unfold append_file.
  destruct (open_append (Path.join out_dir [SUMMARY_FILE]) s (w_fs w))
    as [[[]|e] fs'] eqn:Ho; cbn [w_fs w_ext length reports is_raise].
  - apply open_append_returns in Ho as [_ ->].
    repeat split; try easy; try lia.
    + intros q Hq. now rewrite lookup_insert_ne by congruence.
    + intros before Hb. exists s. unfold read_file at 1.
      rewrite lookup_insert_eq, Hb. reflexivity.
    + intros _. unfold read_file at 1. now rewrite lookup_insert_eq.
  - apply open_append_raises in Ho as [(-> & _)|(Hn & -> & _)].
    + repeat split; try easy; try lia.
      * intros before Hb. exists []. now rewrite app_nil_r.
      * intros _. now left.
    + repeat split; try easy; try lia.
      * intros q Hq. now rewrite lookup_insert_ne by congruence.
      * intros before Hb. unfold read_file in Hb. now rewrite Hn in Hb.
      * intros _. now right.
Qed.

(** ** [download_latest_corpus]: the ways out *)

(** X7: for a project that is not known, or an output directory that is
    not there, [download_latest_corpus] returns [None] at once: no
    directory is created, nothing is fetched, nothing changes. *)
Theorem download_latest_corpus_rejects `{Env}
    (project_name out_dir target : pystr) (w : world) :
  check_project_exists project_name (w_fs w) (w_ext w) = false \/
  os_path_exists out_dir (w_fs w) = false ->
  download_latest_corpus project_name out_dir target w = (Ret None, w, []).
Proof.
  intros Hbad. unfold download_latest_corpus.
  rewrite bind_run. unfold project_exists at 1.
  destruct (check_project_exists project_name (w_fs w) (w_ext w)) eqn:Hk;
    cbn [negb]; [|reflexivity].
  destruct Hbad as [|Ht]; [discriminate|].
  rewrite bind_run. unfold exists_ at 1. rewrite Ht. reflexivity.
Qed.

Lemma download_latest_corpus_rejects_witness :
  (@check_project_exists (scripted abc) (py "libpng") (w_fs abc_world) tt = false
   \/ os_path_exists (py "/w") (w_fs abc_world) = false)
  /\ @download_latest_corpus (scripted abc) (py "libpng") (py "/w") (py "a")
       abc_world
     = (Ret None, abc_world, []).
Proof.
  assert (@check_project_exists (scripted abc) (py "libpng") (w_fs abc_world) tt
          = false \/ os_path_exists (py "/w") (w_fs abc_world) = false) as Hbad
    by (left; vm_compute; reflexivity).
  split; [exact Hbad|].
  exact (@download_latest_corpus_rejects (scripted abc) (py "libpng") (py "/w")
           (py "a") abc_world Hbad).
Defined.

(** X8: only [HTTPError] is turned into [None].  Any other exception of
    the fetch, or of unpacking a fetched archive, leaves
    [download_latest_corpus] as it is, with the corpus directory already
    created. *)
Theorem download_latest_corpus_propagates `{Env}
    (project_name out_dir target : pystr) (w : world) (fs1 : filesys)
    (e : exn) :
  check_project_exists project_name (w_fs w) (w_ext w) = true ->
  os_path_exists out_dir (w_fs w) = true ->
  let corpus_dir := Path.join out_dir [py "corpus"; target] in
  os_makedirs corpus_dir (w_fs w) = (Ret tt, fs1) ->
  e <> HTTPError ->
  let link :=
    http_link project_name target (strftime_ymd (now (w_ext w) - 90)) in
  (forall ext',
     urlopen_read link (w_ext w) = (Raise e, ext') ->
     download_latest_corpus project_name out_dir target w
     = (Raise e, World _ fs1 ext',
        [Makedirs corpus_dir (Ret tt); Urlopen link (Raise e)]))
  /\ (forall body ext' fs2,
        urlopen_read link (w_ext w) = (Ret body, ext') ->
        extractall body corpus_dir fs1 = (Raise e, fs2) ->
        download_latest_corpus project_name out_dir target w
        = (Raise e, World _ fs2 ext',
           [Makedirs corpus_dir (Ret tt); Urlopen link (Ret body);
            Extractall body corpus_dir (Raise e)])).
Proof.
  intros Hk Ht corpus_dir Hm He link.
  rewrite (download_latest_corpus_run _ _ _ _ Hk Ht).
  fold corpus_dir. rewrite Hm, probe_day_run. cbn [w_ext w_fs]. fold link.
  split.
  - intros ext' ->. now destruct (decide (e = HTTPError)).
  - intros body ext' fs2 -> ->. now destruct (decide (e = HTTPError)).
Qed.

Lemma download_latest_corpus_propagates_witness :
  let down := Script (s_targets abc) abc_crash [py "zlib"] 737425
                (fun _ => Raise (OtherError 7)) in
  let w := @World (scripted down) {[ py "/w" := Dir ]} tt in
  @check_project_exists (scripted down) (py "zlib") (w_fs w) tt = true
  /\ os_path_exists (py "/w") (w_fs w) = true
  /\ (os_makedirs (py "/w/corpus/a") (w_fs w)).1 = Ret tt
  /\ OtherError 7 <> HTTPError
  /\ (@download_latest_corpus (scripted down) (py "zlib") (py "/w") (py "a")
        w).1.1 = Raise (OtherError 7).
Proof.
  intros down w.
  split; [vm_compute; reflexivity|].
  split; [vm_compute; reflexivity|].
  split; [vm_compute; reflexivity|].
  split; [discriminate|].
  rewrite (proj1 (@download_latest_corpus_propagates (scripted down)
                    (py "zlib") (py "/w") (py "a") w
                    (os_makedirs (py "/w/corpus/a") (w_fs w)).2
                    (OtherError 7)
                    ltac:(vm_compute; reflexivity)
                    ltac:(vm_compute; reflexivity)
                    makedirs_corpus_abc
                    ltac:(discriminate))
                 tt ltac:(vm_compute; reflexivity)).
  reflexivity.
Defined.

(** X9: a path comes back from [download_latest_corpus] only after an
    archive was fetched and unpacked: the path is
    [out_dir/corpus/target], the project is known, the output directory
    is there, and the calls made are the [makedirs], one fetch that
    succeeded and one extraction that succeeded. *)
Theorem download_latest_corpus_path_means_extracted `{Env}
    (project_name out_dir target p : pystr) (w : world) :
  (download_latest_corpus project_name out_dir target w).1.1 = Ret (Some p) ->
  let corpus_dir := Path.join out_dir [py "corpus"; target] in
  let link :=
    http_link project_name target (strftime_ymd (now (w_ext w) - 90)) in
  p = corpus_dir
  /\ check_project_exists project_name (w_fs w) (w_ext w) = true
  /\ os_path_exists out_dir (w_fs w) = true
  /\ exists body,
       (download_latest_corpus project_name out_dir target w).2
       = [Makedirs corpus_dir (Ret tt); Urlopen link (Ret body);
          Extractall body corpus_dir (Ret tt)].
Proof.
  intros Hres corpus_dir link.
  destruct (check_project_exists project_name (w_fs w) (w_ext w)) eqn:Hk.
  2:{ rewrite download_latest_corpus_rejects in Hres by now left.
      discriminate. }
  destruct (os_path_exists out_dir (w_fs w)) eqn:Ht.
  2:{ rewrite download_latest_corpus_rejects in Hres by now right.
      discriminate. }
  revert Hres. rewrite (download_latest_corpus_run _ _ _ _ Hk Ht).
  fold corpus_dir.
  destruct (os_makedirs corpus_dir (w_fs w)) as [[[]|e] fs1];
    [|discriminate].
  rewrite probe_day_run. cbn [w_ext w_fs]. fold link.
  destruct (urlopen_read link (w_ext w)) as [[body|e] ext1].
  - destruct (extractall body corpus_dir fs1) as [[[]|e] fs2].
    + intros [= <-]. eauto.
    + destruct (decide (e = HTTPError)); discriminate.
  - destruct (decide (e = HTTPError)); discriminate.
Qed.

Lemma download_latest_corpus_path_means_extracted_witness :
  (@download_latest_corpus (scripted abc_online) (py "zlib") (py "/w") (py "a")
     abc_online_world).1.1 = Ret (Some (py "/w/corpus/a"))
  /\ py "/w/corpus/a" = Path.join (py "/w") [py "corpus"; py "a"].
Proof.
  split; [vm_compute; reflexivity|].
  exact (proj1 (@download_latest_corpus_path_means_extracted
                  (scripted abc_online) (py "zlib") (py "/w") (py "a")
                  (py "/w/corpus/a") abc_online_world
                  ltac:(vm_compute; reflexivity))).
Defined.

(** ** [run_fuzzers]: the checks *)

(** [run_fuzzers] up to the loop. *)
Lemma run_fuzzers_checks `{Env} (fuzz_seconds : Z) (workspace : pystr)
    (project_name : option pystr) (w : world) :
  let out_dir := Path.join workspace [py "out"] in
  let artifacts_dir := Path.join out_dir [py "artifacts"] in
  run_fuzzers fuzz_seconds workspace project_name w
  = if os_path_exists workspace (w_fs w)
    then
      match os_makedirs artifacts_dir (w_fs w) with
      | (Raise e, fs1) =>
          (Raise e, World _ fs1 (w_ext w), [Makedirs artifacts_dir (Raise e)])
      | (Ret _, fs1) =>
          if fuzz_seconds <? 1
          then (Ret (false, false), World _ fs1 (w_ext w),
                [Makedirs artifacts_dir (Ret tt)])
          else
            match get_fuzz_targets out_dir fs1 (w_ext w) with
            | [] => (Ret (false, false), World _ fs1 (w_ext w),
                     [Makedirs artifacts_dir (Ret tt); Discover out_dir []])
            | _ :: _ => run_fuzzers fuzz_seconds workspace project_name w
            end
      end
    else (Ret (false, false), w, []).
Proof.
  cbn zeta.
  destruct (os_path_exists workspace (w_fs w)) eqn:Hw.
  2:{ unfold run_fuzzers. rewrite bind_run. unfold exists_ at 1.
      now rewrite Hw. }
  destruct (os_makedirs _ (w_fs w)) as [[[]|e] fs1] eqn:Hm.
  2:{ unfold run_fuzzers. rewrite bind_run. unfold exists_ at 1.
      rewrite Hw. cbn [negb]. rewrite bind_run. unfold makedirs at 1.
      now rewrite Hm. }
  destruct (Z.ltb_spec fuzz_seconds 1) as [Hs|Hs].
  { unfold run_fuzzers. rewrite bind_run. unfold exists_ at 1.
    rewrite Hw. cbn [negb]. rewrite bind_run. unfold makedirs at 1.
    rewrite Hm.
    assert (negb (truthy_int fuzz_seconds) || (fuzz_seconds <? 1) = true) as ->.
    { destruct (Z.ltb_spec fuzz_seconds 1); [apply orb_true_r|lia]. }
    reflexivity. }
  destruct (get_fuzz_targets _ fs1 (w_ext w)) as [|p paths] eqn:Hg;
    [|reflexivity].
  unfold run_fuzzers. rewrite bind_run. unfold exists_ at 1.
  rewrite Hw. cbn [negb]. rewrite bind_run. unfold makedirs at 1.
  rewrite Hm.
  assert (negb (truthy_int fuzz_seconds) || (fuzz_seconds <? 1) = false) as ->.
  { unfold truthy_int. destruct (Z.eqb_spec fuzz_seconds 0); [lia|].
    destruct (Z.ltb_spec fuzz_seconds 1); [lia|reflexivity]. }
  rewrite bind_run. unfold discover at 1. cbn [w_fs w_ext]. rewrite Hg.
  reflexivity.
Qed.

(** X10: [run_fuzzers] never returns [(False, True)], and when it returns
    [(False, False)] one of its three checks failed -- no workspace, a
    budget below one second, or no fuzzer found -- and no target was
    run, nothing fetched and no report written. *)
Theorem run_fuzzers_failure_runs_nothing `{Env} (fuzz_seconds : Z)
    (workspace : pystr) (project_name : option pystr) (w : world) :
  let out_dir := Path.join workspace [py "out"] in
  let '(res, w', t) := run_fuzzers fuzz_seconds workspace project_name w in
  forall bug, res = Ret (false, bug) ->
    bug = false
    /\ fuzz_log t = [] /\ reports t = [] /\ fetched t = []
    /\ w_ext w' = w_ext w
    /\ (os_path_exists workspace (w_fs w) = false \/ fuzz_seconds < 1 \/
        In (Discover out_dir []) t).
Proof.
  cbn zeta. rewrite run_fuzzers_checks.
  destruct (os_path_exists workspace (w_fs w)) eqn:Hw.
  2:{ intros bug [= <-]. repeat split; now left. }
  destruct (os_makedirs _ (w_fs w)) as [[[]|e] fs1] eqn:Hm.
  2:{ intros bug [=]. }
  destruct (Z.ltb_spec fuzz_seconds 1) as [Hs|Hs].
  { intros bug [= <-]. repeat split; try easy. right. now left. }
  destruct (get_fuzz_targets _ fs1 (w_ext w)) as [|p paths] eqn:Hg.
  { intros bug [= <-]. repeat split; try easy. right. right. cbn. tauto. }
  assert (get_fuzz_targets (Path.join workspace [py "out"]) fs1 (w_ext w) <> [])
    as Hne by (rewrite Hg; discriminate).
  rewrite (run_fuzzers_run _ _ _ _ _ Hw Hm Hs Hne).
  destruct (for_in _ _ _) as [[r w2] t2] eqn:Hl.
  apply fuzz_loop_cases in Hl
    as (_ & [(-> & _)|[(k & q & _ & _ & _ & [->|(e & ->)])
                      |(k & e & _ & _ & _ & _ & ->)]]);
    intros bug [=].
Qed.

(** X11: without a workspace [run_fuzzers] returns [(False, False)] and
    touches nothing: no directory is made and no collaborator is
    called. *)
Theorem run_fuzzers_missing_workspace `{Env} (fuzz_seconds : Z)
    (workspace : pystr) (project_name : option pystr) (w : world) :
  os_path_exists workspace (w_fs w) = false ->
  run_fuzzers fuzz_seconds workspace project_name w
  = (Ret (false, false), w, []).
Proof.
  intros Hw. rewrite run_fuzzers_checks. now rewrite Hw.
Qed.

Lemma run_fuzzers_missing_workspace_witness :
  os_path_exists (py "/nowhere") (w_fs abc_world) = false
  /\ @run_fuzzers (scripted abc) 30 (py "/nowhere") None abc_world
     = (Ret (false, false), abc_world, []).
Proof.
  split; [vm_compute; reflexivity|].
  exact (@run_fuzzers_missing_workspace (scripted abc) 30 (py "/nowhere") None
           abc_world ltac:(vm_compute; reflexivity)).
Defined.

(** X12: the budget is checked after the artifacts directory is made: a
    call with a budget below one second returns [(False, False)] without
    looking for fuzzers, but leaves [workspace/out/artifacts] behind. *)
Theorem run_fuzzers_rejected_budget `{Env} (fuzz_seconds : Z)
    (workspace : pystr) (project_name : option pystr) (w : world)
    (fs1 : filesys) :
  os_path_exists workspace (w_fs w) = true ->
  let artifacts_dir :=
    Path.join (Path.join workspace [py "out"]) [py "artifacts"] in
  os_makedirs artifacts_dir (w_fs w) = (Ret tt, fs1) ->
  fuzz_seconds < 1 ->
  run_fuzzers fuzz_seconds workspace project_name w
  = (Ret (false, false), World _ fs1 (w_ext w),
     [Makedirs artifacts_dir (Ret tt)])
  /\ os_path_isdir artifacts_dir fs1 = true.
Proof.
  intros Hw artifacts_dir Hm Hs. rewrite run_fuzzers_checks.
  fold artifacts_dir. rewrite Hw, Hm.
  destruct (Z.ltb_spec fuzz_seconds 1); [|lia].
  split; [reflexivity|]. exact (os_makedirs_isdir _ _ _ Hm).
Qed.

Lemma run_fuzzers_rejected_budget_witness :
  os_path_exists (py "/w") (w_fs abc_world) = true
  /\ (os_makedirs (py "/w/out/artifacts") (w_fs abc_world)).1 = Ret tt
  /\ 0 < 1
  /\ os_path_isdir (py "/w/out/artifacts")
       (w_fs (@run_fuzzers (scripted abc) 0 (py "/w") None abc_world).1.2)
     = true.
Proof.
  pose proof (@run_fuzzers_rejected_budget (scripted abc) 0 (py "/w") None
                abc_world
                (os_makedirs (py "/w/out/artifacts") (w_fs abc_world)).2
                ltac:(vm_compute; reflexivity)
                makedirs_artifacts_abc
                ltac:(lia)) as [Hrun Hdir].
  split; [vm_compute; reflexivity|].
  split; [vm_compute; reflexivity|].
  split; [lia|].
  rewrite Hrun. exact Hdir.
Defined.

(** ** [run_fuzzers]: the corpus *)

Lemma fuzz_corpora_app (t1 t2 : list call) :
  fuzz_corpora (t1 ++ t2) = fuzz_corpora t1 ++ fuzz_corpora t2.
Proof.
  induction t1 as [|c t1 IH]; [reflexivity|].
  destruct c; simpl; now rewrite ?IH.
Qed.

Lemma made_dirs_app (t1 t2 : list call) :
  made_dirs (t1 ++ t2) = made_dirs t1 ++ made_dirs t2.
Proof.
  induction t1 as [|c t1 IH]; [reflexivity|].
  destruct c; simpl; now rewrite ?IH.
Qed.

(** One pass of the loop body from the point where the corpus directory
    is known. *)
Lemma run_one_after_corpus `{Env} (project_name : option pystr)
    (out_dir artifacts_dir : pystr) (secs : Z) (p : pystr) (w : world) :
  let corpus_step : M (option pystr) :=
    match project_name with
    | Some name =>
        if truthy_str name
        then download_latest_corpus name out_dir (Path.basename p)
        else ret None
    | None => ret None
    end in
  run_one project_name out_dir artifacts_dir secs p w
  = match corpus_step w with
    | (Raise e, w1, t1) => (Raise e, w1, t1)
    | (Ret corpus_dir, w1, t1) =>
        match fuzz p secs out_dir corpus_dir (w_fs w1) (w_ext w1) with
        | (tc, st, fs2, ext2) =>
            let ran := Fuzz p secs out_dir corpus_dir tc st in
            if crashed tc st
            then
              let dst := Path.join artifacts_dir [py "test_case"] in
              match shutil_move (default [] tc) dst fs2 with
              | (Raise e, fs3) =>
                  (Raise e, World _ fs3 ext2,
                   t1 ++ [ran; Move (default [] tc) dst (Raise e)])
              | (Ret u, fs3) =>
                  match extracted (default [] st) with
                  | None =>
                      (Ret (Return (true, true)), World _ fs3 ext2,
                       t1 ++ [ran; Move (default [] tc) dst (Ret u)])
                  | Some s =>
                      let summary_file_path :=
                        Path.join artifacts_dir [SUMMARY_FILE] in
                      match open_append summary_file_path s fs3 with
                      | (ra, fs4) =>
                          (match ra with
                           | Ret _ => Ret (Return (true, true))
                           | Raise e => Raise e
                           end,
                           World _ fs4 ext2,
                           t1 ++ [ran; Move (default [] tc) dst (Ret u);
                                  Append summary_file_path s ra])
                      end
                  end
              end
            else (Ret Next, World _ fs2 ext2, t1 ++ [ran])
        end
    end.
Proof.
  cbn zeta. unfold run_one. rewrite bind_run.
  match goal with |- context [match ?m w with _ => _ end] =>
    destruct (m w) as [[[corpus_dir|e] w1] t1] end; [|reflexivity].
  rewrite bind_run. unfold run_target at 1.
  destruct (fuzz p secs out_dir corpus_dir (w_fs w1) (w_ext w1))
    as [[[tc st] fs2] ext2].
  cbn [fst snd]. unfold crashed.
  destruct tc as [test_case|], st as [stack_trace|]; cbn [truthy_opt andb];
    try (unfold ret; now rewrite ?andb_false_r).
  destruct (truthy_str test_case), (truthy_str stack_trace);
    cbn [negb orb andb]; try (unfold ret; reflexivity).
  change (default [] (Some test_case)) with test_case.
  change (default [] (Some stack_trace)) with stack_trace.
  rewrite bind_run. unfold move at 1. cbn [w_fs w_ext].
  destruct (shutil_move test_case _ fs2) as [[u|e] fs3]; [|reflexivity].
  rewrite bind_run, parse_fuzzer_output_extracted.
  destruct (extracted stack_trace) as [s|].
  - unfold append_file at 1. cbn [w_fs w_ext].
    destruct (open_append _ s fs3) as [[u'|e] fs4]; reflexivity.
  - reflexivity.
Qed.

(** X13: in a run for a project, what the corpus download returns is what
    the target is run with: a directory, or [None] after a miss, in which
    case the target is run all the same.  Only an exception that leaves
    the download keeps the target from running. *)
Theorem run_one_passes_corpus_on `{Env} (name out_dir artifacts_dir : pystr)
    (secs : Z) (p : pystr) (w w1 : world)
    (rc : outcome (option pystr)) (t1 : list call) :
  truthy_str name = true ->
  download_latest_corpus name out_dir (Path.basename p) w = (rc, w1, t1) ->
  let '(r, w', t) := run_one (Some name) out_dir artifacts_dir secs p w in
  match rc with
  | Ret corpus_dir =>
      fuzz_corpora t = [corpus_dir]
      /\ (exists c, fuzz_log t = [(p, secs, c)])
      /\ exists rest,
           t = t1 ++ Fuzz p secs out_dir corpus_dir
                       (fuzz p secs out_dir corpus_dir (w_fs w1) (w_ext w1)).1.1.1
                       (fuzz p secs out_dir corpus_dir (w_fs w1) (w_ext w1)).1.1.2
                     :: rest
  | Raise e => r = Raise e /\ w' = w1 /\ t = t1 /\ fuzz_log t = []
  end.
Proof.
  intros Hname Hd. rewrite run_one_after_corpus. cbn zeta.
  rewrite Hname, Hd.
  pose proof (download_latest_corpus_quiet _ _ _ _ _ _ _ Hd) as (Hf & _ & _).
  assert (fuzz_corpora t1 = []) as Hco.
  { revert Hd. clear.
    destruct (check_project_exists name (w_fs w) (w_ext w)) eqn:Hk.
    2:{ rewrite download_latest_corpus_rejects by now left.
        now intros [= <- <- <-]. }
    destruct (os_path_exists out_dir (w_fs w)) eqn:Ht.
    2:{ rewrite download_latest_corpus_rejects by now right.
        now intros [= <- <- <-]. }
    rewrite (download_latest_corpus_run _ _ _ _ Hk Ht).
    destruct (os_makedirs _ (w_fs w)) as [[[]|e] fs1];
      [|now intros [= <- <- <-]].
    rewrite probe_day_run. cbn [w_ext w_fs].
    destruct (urlopen_read _ (w_ext w)) as [[body|e] ext1].
    - destruct (extractall body _ fs1) as [[u|e] fs2];
        [now intros [= <- <- <-]|].
      destruct (decide (e = HTTPError)); now intros [= <- <- <-].
    - destruct (decide (e = HTTPError)); now intros [= <- <- <-]. }
  destruct rc as [corpus_dir|e]; [|easy].
  destruct (fuzz p secs out_dir corpus_dir (w_fs w1) (w_ext w1))
    as [[[tc st] fs2] ext2].
  cbn [fst snd].
  destruct (crashed tc st).
  - destruct (shutil_move _ _ fs2) as [[u|e] fs3].
    + destruct (extracted _) as [s|].
      * destruct (open_append _ s fs3) as [ra fs4].
        rewrite fuzz_corpora_app, fuzz_log_app, Hco, Hf. cbn. eauto.
      * rewrite fuzz_corpora_app, fuzz_log_app, Hco, Hf. cbn. eauto.
    + rewrite fuzz_corpora_app, fuzz_log_app, Hco, Hf. cbn. eauto.
  - rewrite fuzz_corpora_app, fuzz_log_app, Hco, Hf. cbn. eauto.
Qed.

Lemma run_result {A B C} (x : A * B * C) (r : A) :
  x.1.1 = r -> x = (r, x.1.2, x.2).
Proof. destruct x as [[a b] c]. cbn. now intros ->. Defined.

Lemma run_one_passes_corpus_on_witness :
  truthy_str (py "zlib") = true
  /\ fuzz_corpora
       (@run_one (scripted abc) (Some (py "zlib")) (py "/w/out")
          (py "/w/out/artifacts") 10 (py "/w/out/a") abc_world).2
     = [None].
Proof.
  split; [reflexivity|].
  pose proof (@run_one_passes_corpus_on (scripted abc) (py "zlib")
                (py "/w/out") (py "/w/out/artifacts") 10 (py "/w/out/a")
                abc_world
                (@download_latest_corpus (scripted abc) (py "zlib")
                   (py "/w/out") (py "a") abc_world).1.2
                (Ret None)
                (@download_latest_corpus (scripted abc) (py "zlib")
                   (py "/w/out") (py "a") abc_world).2
                eq_refl
                (run_result _ _ ltac:(vm_compute; reflexivity))) as Hthm.
  destruct (@run_one (scripted abc) (Some (py "zlib")) (py "/w/out")
              (py "/w/out/artifacts") 10 (py "/w/out/a") abc_world)
    as [[r w'] t].
  exact (proj1 Hthm).
Defined.

(** ** [run_fuzzers]: handling a crash *)

(** X14: when a target crashes -- whatever the project name, once the
    corpus step has returned -- the test case is moved to
    [artifacts_dir/test_case] before anything is written.  If the move
    raises, no summary is written and the exception leaves the run; if it
    succeeds, the summary extracted from the stack trace is appended to
    [artifacts_dir/bug_summary.txt], and the pass returns [(True, True)]
    even when nothing is extracted and nothing written; an exception of
    the append leaves the run. *)
Theorem run_one_crash_handling `{Env} (project_name : option pystr)
    (out_dir artifacts_dir : pystr) (secs : Z) (p : pystr) (w w1 : world)
    (corpus_dir : option pystr) (t1 : list call)
    (test_case stack_trace : pystr) (fs2 : filesys) (ext2 : Ext) :
  match project_name with
  | Some name =>
      if truthy_str name
      then download_latest_corpus name out_dir (Path.basename p)
      else ret None
  | None => ret None
  end w = (Ret corpus_dir, w1, t1) ->
  fuzz p secs out_dir corpus_dir (w_fs w1) (w_ext w1)
  = ((Some test_case, Some stack_trace), fs2, ext2) ->
  truthy_str test_case = true ->
  truthy_str stack_trace = true ->
  let dst := Path.join artifacts_dir [py "test_case"] in
  let summary_file_path := Path.join artifacts_dir [SUMMARY_FILE] in
  let ran :=
    Fuzz p secs out_dir corpus_dir (Some test_case) (Some stack_trace) in
  (forall e fs3,
     shutil_move test_case dst fs2 = (Raise e, fs3) ->
     run_one project_name out_dir artifacts_dir secs p w
     = (Raise e, World _ fs3 ext2,
        t1 ++ [ran; Move test_case dst (Raise e)]))
  /\ (forall fs3,
        shutil_move test_case dst fs2 = (Ret tt, fs3) ->
        extracted stack_trace = None ->
        run_one project_name out_dir artifacts_dir secs p w
        = (Ret (Return (true, true)), World _ fs3 ext2,
           t1 ++ [ran; Move test_case dst (Ret tt)]))
  /\ (forall fs3 s ra fs4,
        shutil_move test_case dst fs2 = (Ret tt, fs3) ->
        extracted stack_trace = Some s ->
        open_append summary_file_path s fs3 = (ra, fs4) ->
        run_one project_name out_dir artifacts_dir secs p w
        = (match ra with
           | Ret _ => Ret (Return (true, true))
           | Raise e => Raise e
           end,
           World _ fs4 ext2,
           t1 ++ [ran; Move test_case dst (Ret tt);
                  Append summary_file_path s ra])).
Proof.
  intros Hc Hfz Htc Hst dst summary_file_path ran.
  assert (run_one project_name out_dir artifacts_dir secs p w
          = match shutil_move test_case dst fs2 with
            | (Raise e, fs3) =>
                (Raise e, World _ fs3 ext2,
                 t1 ++ [ran; Move test_case dst (Raise e)])
            | (Ret u, fs3) =>
                match extracted stack_trace with
                | None =>
                    (Ret (Return (true, true)), World _ fs3 ext2,
                     t1 ++ [ran; Move test_case dst (Ret u)])
                | Some s =>
                    match open_append summary_file_path s fs3 with
                    | (ra, fs4) =>
                        (match ra with
                         | Ret _ => Ret (Return (true, true))
                         | Raise e => Raise e
                         end,
                         World _ fs4 ext2,
                         t1 ++ [ran; Move test_case dst (Ret u);
                                Append summary_file_path s ra])
                    end
                end
            end) as ->.
  { rewrite run_one_after_corpus. cbn zeta. rewrite Hc, Hfz.
    unfold crashed. cbn [truthy_opt]. rewrite Htc, Hst.
    cbn [andb]. reflexivity. }
  split; [|split].
  - intros e fs3 ->. reflexivity.
  - intros fs3 -> ->. reflexivity.
  - intros fs3 s ra fs4 -> -> ->. reflexivity.
Qed.

(** The second target of the scripted run, in the state the run reaches
    it in: the artifacts directory is there, the test case is moved and
    the summary written. *)
Lemma run_one_crash_handling_witness :
  let fs1 := (os_makedirs (py "/w/out/artifacts") (w_fs abc_world)).2 in
  let r := @run_one (scripted abc) None (py "/w/out") (py "/w/out/artifacts")
             10 (py "/w/out/b") (@World (scripted abc) fs1 tt) in
  truthy_str (py "/w/out/crash-1") = true
  /\ truthy_str asan_trace = true
  /\ r.1.1 = Ret (Return (true, true))
  /\ read_file (py "/w/out/artifacts/bug_summary.txt") (w_fs r.1.2)
     = Some asan_summary
  /\ r.2
     = [Fuzz (py "/w/out/b") 10 (py "/w/out") None
          (Some (py "/w/out/crash-1")) (Some asan_trace);
        Move (py "/w/out/crash-1") (py "/w/out/artifacts/test_case") (Ret tt);
        Append (py "/w/out/artifacts/bug_summary.txt") asan_summary (Ret tt)].
Proof.
  intros fs1 r.
  split; [reflexivity|]. split; [reflexivity|].
  pose (fs2 := <[py "/w/out/crash-1" := File (py "crashing input")]> fs1).
  pose (fs3 := <[py "/w/out/artifacts/test_case"
                 := File (py "crashing input")]>
                 (delete (py "/w/out/crash-1") fs2)).
  pose (summary_file_path := py "/w/out/artifacts/bug_summary.txt").
  assert (r = (Ret (Return (true, true)),
               @World (scripted abc)
                 (<[summary_file_path
                    := File (default [] (read_file summary_file_path fs3)
                             ++ asan_summary)]> fs3) tt,
               [Fuzz (py "/w/out/b") 10 (py "/w/out") None
                  (Some (py "/w/out/crash-1")) (Some asan_trace);
                Move (py "/w/out/crash-1") (py "/w/out/artifacts/test_case")
                  (Ret tt);
                Append summary_file_path asan_summary (Ret tt)])) as ->.
  { unfold r.
    apply (proj2 (proj2
             (@run_one_crash_handling (scripted abc) None (py "/w/out")
                (py "/w/out/artifacts") 10 (py "/w/out/b")
                (@World (scripted abc) fs1 tt) (@World (scripted abc) fs1 tt)
                None [] (py "/w/out/crash-1") asan_trace fs2 tt
                eq_refl eq_refl eq_refl eq_refl))
             fs3 asan_summary (Ret tt)).
    - unfold shutil_move, scripted, fs3, fs2.
      now rewrite lookup_insert_eq.
    - vm_compute. reflexivity.
    - apply open_append_ok; vm_compute; reflexivity. }
  cbn [fst snd w_fs].
  split; [reflexivity|].
  split; [|reflexivity].
  rewrite (proj2 (can_append_after _ asan_summary fs3 _)).
  f_equal; vm_compute; reflexivity.
Defined.

(** ** [run_fuzzers] without a project *)

Lemma run_one_standalone `{Env} (project_name : option pystr)
    (out_dir artifacts_dir : pystr) (secs : Z) (p : pystr) (w : world) :
  truthy_opt project_name = false ->
  let t := (run_one project_name out_dir artifacts_dir secs p w).2 in
  fetched t = [] /\ made_dirs t = [] /\ fuzz_corpora t = [None].
Proof.
  intros Hpn. cbn zeta. rewrite run_one_after_corpus. cbn zeta.
  assert (match project_name with
          | Some name =>
              if truthy_str name
              then download_latest_corpus name out_dir (Path.basename p)
              else ret None
          | None => ret None
          end = ret None) as ->.
  { destruct project_name as [name|]; [|reflexivity].
    cbn [truthy_opt] in Hpn. now rewrite Hpn. }
  unfold ret.
  destruct (fuzz p secs out_dir None (w_fs w) (w_ext w))
    as [[[tc st] fs2] ext2].
  destruct (crashed tc st); [|now cbn].
  destruct (shutil_move _ _ fs2) as [[u|e] fs3]; [|now cbn].
  destruct (extracted _) as [s|]; [|now cbn].
  destruct (open_append _ s fs3) as [ra fs4]. now cbn.
Qed.

Lemma fuzz_loop_standalone `{Env} (project_name : option pystr)
    (out_dir artifacts_dir : pystr) (secs : Z) (paths : list pystr) :
  truthy_opt project_name = false ->
  forall w : world,
  let t := (for_in paths (run_one project_name out_dir artifacts_dir secs) w).2 in
  fetched t = [] /\ made_dirs t = [] /\ Forall (eq None) (fuzz_corpora t).
Proof.
  intros Hpn. induction paths as [|p paths IH]; intros w; cbn zeta.
  - cbn. easy.
  - cbn [for_in]. rewrite bind_run.
    pose proof (run_one_standalone project_name out_dir artifacts_dir secs p w
                  Hpn) as Hone. cbn zeta in Hone.
    destruct (run_one project_name out_dir artifacts_dir secs p w)
      as [[[c|e] w1] t1]; cbn [snd] in *.
    2:{ destruct Hone as (-> & -> & ->). repeat split; try easy.
        now repeat constructor. }
    destruct Hone as (Hf & Hm & Hc).
    assert (forall t2,
              fetched t2 = [] -> made_dirs t2 = [] ->
              Forall (eq None) (fuzz_corpora t2) ->
              fetched (t1 ++ t2) = [] /\ made_dirs (t1 ++ t2) = [] /\
              Forall (eq None) (fuzz_corpora (t1 ++ t2))) as Hjoin.
    { intros t2 Hf2 Hm2 Hc2.
      rewrite fetched_app, made_dirs_app, fuzz_corpora_app, Hf, Hm, Hc, Hf2, Hm2.
      repeat split; try easy. now constructor. }
    destruct c as [| |v].
    + specialize (IH w1). cbn zeta in IH.
      destruct (for_in paths _ w1) as [[r2 w2] t2]. cbn [snd] in *.
      destruct IH as (Hf2 & Hm2 & Hc2). now apply Hjoin.
    + unfold ret. cbn [snd]. now apply Hjoin.
    + unfold ret. cbn [snd]. now apply Hjoin.
Qed.

(** X15: without a project name -- [None] or the empty string --
    [run_fuzzers] stays off the network: nothing is fetched, every target
    is run without a corpus directory, and the only call of
    [os.makedirs] it ever makes is the one for [workspace/out/artifacts]
    (which makes [workspace/out] on the way when it is missing): no
    corpus directory is asked for. *)
Theorem run_fuzzers_standalone `{Env} (fuzz_seconds : Z) (workspace : pystr)
    (project_name : option pystr) (w : world) :
  truthy_opt project_name = false ->
  let artifacts_dir :=
    Path.join (Path.join workspace [py "out"]) [py "artifacts"] in
  let t := (run_fuzzers fuzz_seconds workspace project_name w).2 in
  fetched t = []
  /\ Forall (eq None) (fuzz_corpora t)
  /\ (made_dirs t = [] \/ made_dirs t = [artifacts_dir]).
Proof.
  intros Hpn. cbn zeta. rewrite run_fuzzers_checks.
  destruct (os_path_exists workspace (w_fs w)) eqn:Hw.
  2:{ cbn. repeat split; try easy. now left. }
  destruct (os_makedirs _ (w_fs w)) as [[[]|e] fs1] eqn:Hm.
  2:{ cbn. repeat split; try easy. now right. }
  destruct (Z.ltb_spec fuzz_seconds 1) as [Hs|Hs].
  { cbn. repeat split; try easy. now right. }
  destruct (get_fuzz_targets _ fs1 (w_ext w)) as [|p paths] eqn:Hg.
  { cbn. repeat split; try easy. now right. }
  assert (get_fuzz_targets (Path.join workspace [py "out"]) fs1 (w_ext w) <> [])
    as Hne by (rewrite Hg; discriminate).
  rewrite (run_fuzzers_run _ _ _ _ _ Hw Hm Hs Hne).
  match goal with |- context [for_in ?ps (run_one _ ?od ?ad ?secs) ?w0] =>
    pose proof (fuzz_loop_standalone project_name od ad secs ps Hpn w0)
      as Hloop;
    cbn zeta in Hloop;
    destruct (for_in ps (run_one project_name od ad secs) w0) as [[r w2] t2]
  end.
  cbn [snd] in *. destruct Hloop as (Hf & Hmd & Hc).
  cbn [fetched made_dirs fuzz_corpora]. rewrite Hf, Hmd.
  repeat split; try easy. now right.
Qed.

Lemma run_fuzzers_standalone_witness :
  truthy_opt (Some []) = false
  /\ fetched (@run_fuzzers (scripted abc) 30 (py "/w") (Some []) abc_world).2
     = [].
Proof.
  split; [reflexivity|].
  exact (proj1 (@run_fuzzers_standalone (scripted abc) 30 (py "/w") (Some [])
                  abc_world eq_refl)).
Defined.

(** ** [run_fuzzers]: more fuzzers than seconds *)

(** X16: a budget of at least one second but fewer seconds than fuzzers
    passes the check -- the run does not return [(False, False)] -- and
    the targets are run, for zero seconds each, in the order found: all
    of them, and the run returns [(True, False)]; or up to and with the
    first one that crashes; or up to the one whose corpus download
    raised. *)
Theorem run_fuzzers_zero_allotment `{Env} (fuzz_seconds : Z)
    (workspace : pystr) (project_name : option pystr) (w : world)
    (fs1 : filesys) :
  os_path_exists workspace (w_fs w) = true ->
  let out_dir := Path.join workspace [py "out"] in
  let artifacts_dir := Path.join out_dir [py "artifacts"] in
  os_makedirs artifacts_dir (w_fs w) = (Ret tt, fs1) ->
  1 <= fuzz_seconds ->
  fuzz_seconds < len (get_fuzz_targets out_dir fs1 (w_ext w)) ->
  let '(res, w', t) := run_fuzzers fuzz_seconds workspace project_name w in
  Forall (fun entry => entry.1.2 = 0) (fuzz_log t)
  /\ allotted t = 0
  /\ (res = Ret (true, false) ->
      length (fuzz_log t) = length (get_fuzz_targets out_dir fs1 (w_ext w)))
  /\ res <> Ret (false, false)
  /\ ((res = Ret (true, false) /\
       fuzz_log t = clean 0 <$> get_fuzz_targets out_dir fs1 (w_ext w))
      \/ (exists k p,
            get_fuzz_targets out_dir fs1 (w_ext w) !! k = Some p /\
            fuzz_log t
            = (clean 0 <$> take k (get_fuzz_targets out_dir fs1 (w_ext w)))
              ++ [(p, 0, true)] /\
            (res = Ret (true, true) \/ exists e, res = Raise e))
      \/ (exists k e,
            (k < length (get_fuzz_targets out_dir fs1 (w_ext w)))%nat /\
            fuzz_log t
            = clean 0 <$> take k (get_fuzz_targets out_dir fs1 (w_ext w)) /\
            project_name <> None /\ res = Raise e)).
Proof.
  intros Hw out_dir artifacts_dir Hm Hs Hlt.
  assert (get_fuzz_targets out_dir fs1 (w_ext w) <> []) as Hne.
  { intros E. rewrite E in Hlt. unfold len in Hlt. cbn in Hlt. lia. }
  rewrite (run_fuzzers_run _ _ _ _ _ Hw Hm Hs Hne).
  fold out_dir artifacts_dir.
  rewrite (Z.div_small fuzz_seconds) by lia.
  destruct (for_in _ _ _) as [[r w2] t2] eqn:Hl.
  unfold allotted. cbn [fuzz_log].
  assert (forall l : list pystr,
            Forall (fun entry : pystr * Z * bool => entry.1.2 = 0)
                   (clean 0 <$> l)) as Hall
    by (intros l; apply Forall_fmap, Forall_true; now intros).
  apply fuzz_loop_cases in Hl
    as (_ & [(-> & Hf & Hp)
            |[(k & p & Hk & Hf & Hp & Hr)|(k & e & Hk & Hf & Hp & Hx & ->)]]);
    rewrite Hf.
  - split; [apply Hall|]. split; [rewrite allotted_clean; lia|].
    split; [intros _; now rewrite length_fmap|].
    split; [discriminate|]. now left.
  - split; [apply Forall_app; split; [apply Hall|now repeat constructor]|].
    split.
    { rewrite foldr_app. cbn [foldr fst snd].
      change (0 + 0) with 0. rewrite allotted_clean. lia. }
    split.
    { intros Hres. destruct Hr as [->|(e & ->)]; discriminate Hres. }
    split.
    { destruct Hr as [->|(e & ->)]; discriminate. }
    right. left. exists k, p. split; [assumption|]. split; [reflexivity|].
    destruct Hr as [->|(e & ->)]; [now left|right; now exists e].
  - split; [apply Hall|]. split; [rewrite allotted_clean; lia|].
    split; [discriminate|]. split; [discriminate|].
    right. right. exists k, e. easy.
Qed.

Lemma run_fuzzers_zero_allotment_witness :
  os_path_exists (py "/w") (w_fs abc_world) = true
  /\ (os_makedirs (py "/w/out/artifacts") (w_fs abc_world)).1 = Ret tt
  /\ 1 <= 2 /\ 2 < len (s_targets abc)
  /\ allotted (@run_fuzzers (scripted abc) 2 (py "/w") None abc_world).2 = 0.
Proof.
  pose proof (@run_fuzzers_zero_allotment (scripted abc) 2 (py "/w") None
                abc_world
                (os_makedirs (py "/w/out/artifacts") (w_fs abc_world)).2
                ltac:(vm_compute; reflexivity)
                makedirs_artifacts_abc
                ltac:(lia)
                ltac:(vm_compute; reflexivity)) as Hthm.
  split; [vm_compute; reflexivity|].
  split; [vm_compute; reflexivity|].
  split; [lia|]. split; [vm_compute; reflexivity|].
  destruct (@run_fuzzers (scripted abc) 2 (py "/w") None abc_world)
    as [[res w'] t].
  exact (proj1 (proj2 Hthm)).
Defined.

(** ** [build_fuzzers] *)

Lemma collab_run `{Env} {A}
    (f : filesys -> Ext -> outcome A * filesys * Ext) (w : world) :
  collab f w
  = match f (w_fs w) (w_ext w) with
    | (r, fs', ext') => (r, World _ fs' ext', [])
    end.
Proof. unfold collab. now destruct (f (w_fs w) (w_ext w)) as [[r fs'] ext']. Qed.

(** The [try] around the checkout, run. *)
Lemma checkout_run `{BuildEnv} (m : repo_manager)
    (pr_ref commit_sha : option pystr) (w : world) :
  checkout m pr_ref commit_sha w
  = match (if truthy_opt pr_ref
           then checkout_pr m pr_ref
           else checkout_commit m commit_sha) (w_fs w) (w_ext w) with
    | (Ret _, fs', ext') => (Ret Next, World _ fs' ext', [])
    | (Raise e, fs', ext') =>
        (if decide (e = RuntimeError) then Ret (Return false)
         else if decide (e = ValueError) then Ret (Return false)
         else Raise e,
         World _ fs' ext', [])
    end.
Proof.
  unfold checkout, try_except. rewrite bind_run.
  destruct (truthy_opt pr_ref); rewrite collab_run;
    match goal with |- context [match ?f (w_fs w) (w_ext w) with _ => _ end] =>
      destruct (f (w_fs w) (w_ext w)) as [[[u|e] fs'] ext']
    end; try reflexivity;
    destruct (decide (e = RuntimeError)) as [->|]; try reflexivity;
    destruct (decide (e = ValueError)); reflexivity.
Qed.

(** [build_fuzzers] once a ref is given and the workspace is there. *)
Lemma build_fuzzers_run `{BuildEnv} (project_name project_repo_name
    workspace : pystr) (pr_ref commit_sha : option pystr) (w : world) :
  truthy_opt pr_ref || truthy_opt commit_sha = true ->
  os_path_exists workspace (w_fs w) = true ->
  let git_workspace := Path.join workspace [py "storage"] in
  let out_dir := Path.join workspace [py "out"] in
  build_fuzzers project_name project_repo_name workspace pr_ref commit_sha w
  = match os_makedirs git_workspace (w_fs w) with
    | (Raise e, fs1) =>
        (Raise e, World _ fs1 (w_ext w), [Makedirs git_workspace (Raise e)])
    | (Ret _, fs1) =>
    match os_makedirs out_dir fs1 with
    | (Raise e, fs2) =>
        (Raise e, World _ fs2 (w_ext w),
         [Makedirs git_workspace (Ret tt); Makedirs out_dir (Raise e)])
    | (Ret _, fs2) =>
    let made := [Makedirs git_workspace (Ret tt); Makedirs out_dir (Ret tt)] in
    match detect_main_repo project_name project_repo_name fs2 (w_ext w) with
    | (Raise e, fs3, ext3) => (Raise e, World _ fs3 ext3, made)
    | (Ret (inferred_url, oss_fuzz_repo_path), fs3, ext3) =>
    if truthy_opt inferred_url && truthy_opt oss_fuzz_repo_path
    then
      let repo_path := default [] oss_fuzz_repo_path in
      let m := RepoManager (default [] inferred_url) git_workspace
                 (Path.basename repo_path) in
      match repo_manager_init m fs3 ext3 with
      | (Raise e, fs4, ext4) => (Raise e, World _ fs4 ext4, made)
      | (Ret _, fs4, ext4) =>
      match (if truthy_opt pr_ref
             then checkout_pr m pr_ref
             else checkout_commit m commit_sha) fs4 ext4 with
      | (Raise e, fs5, ext5) =>
          (if decide (e = RuntimeError) then Ret false
           else if decide (e = ValueError) then Ret false
           else Raise e,
           World _ fs5 ext5, made)
      | (Ret _, fs5, ext5) =>
          match docker_run
                  (build_command project_name out_dir git_workspace
                     (Path.dirname repo_path) (Path.basename repo_path)
                     (get_container_name fs5 ext5)) fs5 ext5 with
          | (status, fs6, ext6) =>
              (Ret (negb (truthy_int status)), World _ fs6 ext6, made)
          end
      end
      end
    else (Ret false, World _ fs3 ext3, made)
    end
    end
    end.
Proof.
  intros Hr Hw. cbn zeta. unfold build_fuzzers. rewrite Hr. cbn [negb].
  rewrite bind_run. unfold exists_ at 1. rewrite Hw. cbn [negb].
  rewrite bind_run. unfold makedirs at 1.
  destruct (os_makedirs _ (w_fs w)) as [[[]|e] fs1]; [|reflexivity].
  rewrite bind_run. unfold makedirs at 1. cbn [w_fs w_ext].
  destruct (os_makedirs _ fs1) as [[[]|e] fs2]; [|reflexivity].
  rewrite bind_run, collab_run. cbn [w_fs w_ext].
  destruct (detect_main_repo _ _ fs2 (w_ext w))
    as [[[[inferred_url oss_fuzz_repo_path]|e] fs3] ext3]; [|reflexivity].
  destruct inferred_url as [url|], oss_fuzz_repo_path as [repo_path|];
    cbn [truthy_opt andb]; try reflexivity;
    try (now rewrite andb_false_r).
  destruct (truthy_str url), (truthy_str repo_path); cbn [negb orb andb];
    try reflexivity.
  change (default [] (Some repo_path)) with repo_path.
  change (default [] (Some url)) with url.
  rewrite bind_run, collab_run. cbn [w_fs w_ext].
  destruct (repo_manager_init _ fs3 ext3) as [[[[]|e] fs4] ext4];
    [|reflexivity].
  rewrite bind_run, checkout_run. cbn [w_fs w_ext].
  match goal with |- context [match ?f fs4 ext4 with _ => _ end] =>
    destruct (f fs4 ext4) as [[[u|e] fs5] ext5]
  end.
  - rewrite bind_run. cbn [w_fs w_ext]. rewrite bind_run, collab_run.
    cbn [w_fs w_ext].
    destruct (docker_run _ fs5 ext5) as [[status fs6] ext6].
    now destruct (truthy_int status).
  - destruct (decide (e = RuntimeError)); [reflexivity|].
    destruct (decide (e = ValueError)); reflexivity.
Qed.

(** X17: called with neither a pull request nor a commit,
    [build_fuzzers] fails its assertion before it looks at the workspace:
    nothing is made and nothing changes. *)
Theorem build_fuzzers_needs_ref `{BuildEnv} (project_name project_repo_name
    workspace : pystr) (pr_ref commit_sha : option pystr) (w : world) :
  truthy_opt pr_ref = false ->
  truthy_opt commit_sha = false ->
  build_fuzzers project_name project_repo_name workspace pr_ref commit_sha w
  = (Raise AssertionError, w, []).
Proof.
  intros Hp Hc. unfold build_fuzzers. rewrite Hp, Hc. reflexivity.
Qed.

Lemma build_fuzzers_needs_ref_witness :
  truthy_opt (Some []) = false /\ truthy_opt None = false
  /\ @build_fuzzers (scripted abc) (scripted_build abc zlib_build)
       (py "zlib") (py "zlib") (py "/w") (Some []) None abc_world
     = (Raise AssertionError, abc_world, []).
Proof.
  split; [reflexivity|]. split; [reflexivity|].
  exact (@build_fuzzers_needs_ref (scripted abc) (scripted_build abc zlib_build)
           (py "zlib") (py "zlib") (py "/w") (Some []) None abc_world
           eq_refl eq_refl).
Defined.

(** X18: without a workspace [build_fuzzers] returns [False] and touches
    nothing: neither [storage] nor [out] is made and no collaborator is
    called. *)
Theorem build_fuzzers_missing_workspace `{BuildEnv}
    (project_name project_repo_name workspace : pystr)
    (pr_ref commit_sha : option pystr) (w : world) :
  truthy_opt pr_ref || truthy_opt commit_sha = true ->
  os_path_exists workspace (w_fs w) = false ->
  build_fuzzers project_name project_repo_name workspace pr_ref commit_sha w
  = (Ret false, w, []).
Proof.
  intros Hr Hw. unfold build_fuzzers. rewrite Hr. cbn [negb].
  rewrite bind_run. unfold exists_ at 1. now rewrite Hw.
Qed.

Lemma build_fuzzers_missing_workspace_witness :
  truthy_opt None || truthy_opt (Some (py "c0ffee")) = true
  /\ os_path_exists (py "/nowhere") (w_fs abc_world) = false
  /\ @build_fuzzers (scripted abc) (scripted_build abc zlib_build)
       (py "zlib") (py "zlib") (py "/nowhere") None (Some (py "c0ffee"))
       abc_world
     = (Ret false, abc_world, []).
Proof.
  split; [reflexivity|]. split; [vm_compute; reflexivity|].
  exact (@build_fuzzers_missing_workspace (scripted abc)
           (scripted_build abc zlib_build)
           (py "zlib") (py "zlib") (py "/nowhere") None (Some (py "c0ffee"))
           abc_world eq_refl ltac:(vm_compute; reflexivity)).
Defined.

Lemma endswith_app (a b : pystr) : Str.endswith (a ++ b) b = true.
Proof.
  unfold Str.endswith. rewrite reverse_app. apply startswith_app. eauto.
Qed.

Lemma build_command_script (project_name out_dir git_workspace src_in_docker
    oss_fuzz_repo_name : pystr) (container : option pystr) :
  exists options script,
    build_command project_name out_dir git_workspace src_in_docker
      oss_fuzz_repo_name container
    = options ++ [py "gcr.io/oss-fuzz/" ++ project_name; py "/bin/bash";
                  py "-c"; script]
    /\ Str.endswith script (py "compile") = true.
Proof.
  unfold build_command. destruct (truthy_opt container).
  - eexists _, _. rewrite <- app_assoc. split; [reflexivity|].
    change (py " && compile") with (py " && " ++ py "compile").
    rewrite !app_assoc. apply (endswith_app _ (py "compile")).
  - eexists _, _. rewrite <- app_assoc. split; [reflexivity|].
    apply (endswith_app [] (py "compile")).
Qed.

(** X19: [build_fuzzers] returns [True] only when the workspace is
    there, the repository was detected, the checkout -- of the pull
    request if one is given, of the commit otherwise -- returned, and the
    container, run in the state the checkout left with a command that
    names the image of the project and ends in a script that ends with
    [compile], exited with status [0]. *)
Theorem build_fuzzers_true_means_built `{BuildEnv}
    (project_name project_repo_name workspace : pystr)
    (pr_ref commit_sha : option pystr) (w : world) :
  let '(res, w', t) :=
    build_fuzzers project_name project_repo_name workspace pr_ref commit_sha w
  in
  res = Ret true ->
  os_path_exists workspace (w_fs w) = true
  /\ exists m fs4 ext4 fs5 ext5 options script,
       (if truthy_opt pr_ref
        then checkout_pr m pr_ref
        else checkout_commit m commit_sha) fs4 ext4 = (Ret tt, fs5, ext5)
       /\ base_dir m = Path.join workspace [py "storage"]
       /\ docker_run
            (options ++ [py "gcr.io/oss-fuzz/" ++ project_name; py "/bin/bash";
                         py "-c"; script]) fs5 ext5
          = (0, w_fs w', w_ext w')
       /\ Str.endswith script (py "compile") = true.
Proof.
  destruct (truthy_opt pr_ref || truthy_opt commit_sha) eqn:Hr.
  2:{ unfold build_fuzzers. rewrite Hr. cbn. discriminate. }
  destruct (os_path_exists workspace (w_fs w)) eqn:Hw.
  2:{ rewrite (build_fuzzers_missing_workspace _ _ _ _ _ _ Hr Hw).
      discriminate. }
  rewrite (build_fuzzers_run _ _ _ _ _ _ Hr Hw).
  destruct (os_makedirs _ (w_fs w)) as [[[]|e] fs1]; [|discriminate].
  destruct (os_makedirs _ fs1) as [[[]|e] fs2]; [|discriminate].
  cbn zeta.
  destruct (detect_main_repo _ _ fs2 (w_ext w))
    as [[[[inferred_url oss_fuzz_repo_path]|e] fs3] ext3]; [|discriminate].
  destruct (truthy_opt inferred_url && truthy_opt oss_fuzz_repo_path);
    [|discriminate].
  destruct (repo_manager_init _ fs3 ext3) as [[[[]|e] fs4] ext4];
    [|discriminate].
  match goal with |- context [match ?f fs4 ext4 with _ => _ end] =>
    destruct (f fs4 ext4) as [[[[]|e] fs5] ext5] eqn:Hco
  end.
  2:{ destruct (decide (e = RuntimeError)); [discriminate|].
      destruct (decide (e = ValueError)); discriminate. }
  match goal with |- context [docker_run ?c fs5 ext5] =>
    destruct (docker_run c fs5 ext5) as [[status fs6] ext6] eqn:Hd
  end.
  intros [= Hst]. split; [reflexivity|].
  assert (status = 0) as ->.
  { unfold truthy_int in Hst. destruct (Z.eqb_spec status 0); [assumption|].
    discriminate. }
  match type of Hd with docker_run (build_command ?a ?b ?c ?d ?e ?f) _ _ = _ =>
    destruct (build_command_script a b c d e f) as (options & script & Hcmd & He)
  end.
  rewrite Hcmd in Hd.
  eexists _, fs4, ext4, fs5, ext5, options, script.
  split; [exact Hco|]. split; [reflexivity|]. split; [exact Hd|exact He].
Qed.

Lemma build_fuzzers_true_means_built_witness :
  (@build_fuzzers (scripted abc) (scripted_build abc zlib_build)
     (py "zlib") (py "zlib") (py "/w") (Some (py "refs/pull/1/merge")) None
     abc_world).1.1 = Ret true
  /\ os_path_exists (py "/w") (w_fs abc_world) = true.
Proof.
  assert ((@build_fuzzers (scripted abc) (scripted_build abc zlib_build)
             (py "zlib") (py "zlib") (py "/w") (Some (py "refs/pull/1/merge"))
             None abc_world).1.1 = Ret true) as Hres
    by (vm_compute; reflexivity).
  split; [exact Hres|].
  pose proof (@build_fuzzers_true_means_built (scripted abc)
                (scripted_build abc zlib_build)
                (py "zlib") (py "zlib") (py "/w")
                (Some (py "refs/pull/1/merge")) None abc_world) as Hthm.
  destruct (@build_fuzzers (scripted abc) (scripted_build abc zlib_build)
              (py "zlib") (py "zlib") (py "/w")
              (Some (py "refs/pull/1/merge")) None abc_world)
    as [[res w'] t].
  exact (proj1 (Hthm Hres)).
Defined.


(** X22: when repository detection gives no URL or no path,
    [build_fuzzers] returns [False] in the state detection left: no
    repository is set up, nothing is checked out and no container is
    run; [storage] and [out] have been made all the same. *)
Theorem build_fuzzers_undetected `{BuildEnv}
    (project_name project_repo_name workspace : pystr)
    (pr_ref commit_sha : option pystr) (w : world)
    (fs1 fs2 fs3 : filesys) (ext3 : Ext)
    (inferred_url oss_fuzz_repo_path : option pystr) :
  truthy_opt pr_ref || truthy_opt commit_sha = true ->
  os_path_exists workspace (w_fs w) = true ->
  let git_workspace := Path.join workspace [py "storage"] in
  let out_dir := Path.join workspace [py "out"] in
  os_makedirs git_workspace (w_fs w) = (Ret tt, fs1) ->
  os_makedirs out_dir fs1 = (Ret tt, fs2) ->
  detect_main_repo project_name project_repo_name fs2 (w_ext w)
  = (Ret (inferred_url, oss_fuzz_repo_path), fs3, ext3) ->
  truthy_opt inferred_url = false \/ truthy_opt oss_fuzz_repo_path = false ->
  build_fuzzers project_name project_repo_name workspace pr_ref commit_sha w
  = (Ret false, World _ fs3 ext3,
     [Makedirs git_workspace (Ret tt); Makedirs out_dir (Ret tt)]).
Proof.
  intros Hr Hw git_workspace out_dir Hm1 Hm2 Hd Hfalsy.
  rewrite (build_fuzzers_run _ _ _ _ _ _ Hr Hw).
  fold git_workspace out_dir. rewrite Hm1, Hm2. cbn zeta. rewrite Hd.
  assert (truthy_opt inferred_url && truthy_opt oss_fuzz_repo_path = false)
    as -> by (destruct Hfalsy as [-> | ->]; [reflexivity|apply andb_false_r]).
  reflexivity.
Qed.


Lemma run_fuzzers_failure_runs_nothing_witness :
  (@run_fuzzers (scripted abc) 0 (py "/w") (Some (py "zlib")) abc_world).1.1
  = Ret (false, false)
  /\ fuzz_log
       (@run_fuzzers (scripted abc) 0 (py "/w") (Some (py "zlib")) abc_world).2
     = [].
Proof.
  assert ((@run_fuzzers (scripted abc) 0 (py "/w") (Some (py "zlib"))
             abc_world).1.1 = Ret (false, false)) as Hres
    by (vm_compute; reflexivity).
  split; [exact Hres|].
  pose proof (@run_fuzzers_failure_runs_nothing (scripted abc) 0 (py "/w")
                (Some (py "zlib")) abc_world) as Hthm.
  cbn zeta in Hthm.
  destruct (@run_fuzzers (scripted abc) 0 (py "/w") (Some (py "zlib"))
              abc_world) as [[res w'] t].
  exact (proj1 (proj2 (Hthm false Hres))).
Defined.


Lemma build_fuzzers_undetected_witness :
  let undetected := BuildScript (None, None) (Ret tt) None 0 in
  let storage := Path.join (py "/w") [py "storage"] in
  let out := Path.join (py "/w") [py "out"] in
  let fs1 := (os_makedirs storage (w_fs abc_world)).2 in
  truthy_opt (Some (py "refs/pull/1/merge")) || truthy_opt None = true
  /\ os_path_exists (py "/w") (w_fs abc_world) = true
  /\ (os_makedirs storage (w_fs abc_world)).1 = Ret tt
  /\ (os_makedirs out fs1).1 = Ret tt
  /\ (@build_fuzzers (scripted abc) (scripted_build abc undetected)
        (py "zlib") (py "zlib") (py "/w") (Some (py "refs/pull/1/merge")) None
        abc_world).1.1 = Ret false.
Proof.
  intros undetected storage out fs1.
  assert ((os_makedirs storage (w_fs abc_world)).1 = Ret tt) as Hm1
    by (vm_compute; reflexivity).
  assert ((os_makedirs out fs1).1 = Ret tt) as Hm2
    by (vm_compute; reflexivity).
  split; [reflexivity|]. split; [vm_compute; reflexivity|].
  split; [exact Hm1|]. split; [exact Hm2|].
  rewrite (@build_fuzzers_undetected (scripted abc)
             (scripted_build abc undetected)
             (py "zlib") (py "zlib") (py "/w") (Some (py "refs/pull/1/merge"))
             None abc_world fs1 (os_makedirs out fs1).2
             (os_makedirs out fs1).2 tt None None
             eq_refl ltac:(vm_compute; reflexivity)
             (outcome_unit_ret _ Hm1) (outcome_unit_ret _ Hm2)
             eq_refl (or_introl eq_refl)).
  reflexivity.
Defined.


Lemma py_slice_substring_witness :
  py_slice (py "abcdef") (PyInt (-4)) (PyInt 5) <> []
  /\ exists pre post,
       py "abcdef" = pre ++ py_slice (py "abcdef") (PyInt (-4)) (PyInt 5) ++ post
       /\ len pre = 2.
Proof.
  assert (py_slice (py "abcdef") (PyInt (-4)) (PyInt 5) <> []) as Hne
    by (vm_compute; discriminate).
  split; [exact Hne|].
  destruct (py_slice_substring (py "abcdef") (PyInt (-4)) (PyInt 5))
    as (pre & post & Hs & Hb).
  exists pre, post. split; [exact Hs|]. exact (proj1 (Hb Hne)).
Defined.

Lemma parse_fuzzer_output_append_only_witness :
  w_ext (@parse_fuzzer_output (scripted abc) asan_trace (py "/w") abc_world).1.2
  = w_ext abc_world.
Proof.
  pose proof (@parse_fuzzer_output_append_only (scripted abc) asan_trace
                (py "/w") abc_world) as Hthm.
  cbn zeta in Hthm.
  destruct (@parse_fuzzer_output (scripted abc) asan_trace (py "/w") abc_world)
    as [[r w'] t].
  exact (proj1 Hthm).
Defined.
